(** * PyGW2.calendar: the Mauvelian calendar and its date converter

    A shallow embedding of [PyGW2/calendar.py].  Python integers are
    unbounded and are modelled by [Z]; an operation that can raise returns a
    [result]; the one mutable object, the converter's reference pair, is
    threaded explicitly.  The few primitives of the Python runtime the
    module relies on (true division of integers, [math.ceil], [math.floor],
    [range], [datetime.date], the recursion limit, name lookup) are modelled
    first, each as the language defines it. *)

From Stdlib Require Import ZArith Bool List String Lia.
From Stdlib Require Import Floats.SpecFloat.
From Stdlib Require Import DecimalString.
Import ListNotations.
Local Open Scope string_scope.
Local Open Scope Z_scope.

(* ================================================================== *)
(** * The Python runtime *)
(* ================================================================== *)

Module Py.

(** The exceptions the module can raise, directly or through a primitive. *)
Inductive exn : Type :=
| ValueError (msg : string)
| TypeError
| RuntimeError (msg : string)
| NameError (name : string)
| RecursionError
| OverflowError
| ZeroDivisionError.

Inductive result (A : Type) : Type :=
| Ok (a : A)
| Raise (e : exn).
Arguments Ok {A} a.
Arguments Raise {A} e.

Definition bind {A B : Type} (r : result A) (k : A -> result B) : result B :=
  match r with
  | Ok a => k a
  | Raise e => Raise e
  end.

Definition is_ok {A : Type} (r : result A) : bool :=
  match r with Ok _ => true | Raise _ => false end.

(** ** [range(start, stop)] with step 1 *)

Record range : Type := { start : Z; stop : Z }.

Definition len (r : range) : Z := Z.max 0 (stop r - start r).

Definition contains (r : range) (x : Z) : bool :=
  (start r <=? x) && (x <? stop r).

(** ** Floats: [int / int], [math.ceil], [math.floor]

    A finite binary64 value is kept as [mant * 2 ^ expo].  True division
    of two integers returns the double nearest to the exact quotient, ties
    to even, and raises [OverflowError] when that double would not be
    finite. *)

Record float : Type := { mant : Z; expo : Z }.

(** The integer nearest to [num / den], ties to even ([0 < den]). *)
Definition round_half_even (num den : Z) : Z :=
  let q := num / den in
  let r := num mod den in
  if 2 * r <? den then q
  else if den <? 2 * r then q + 1
  else if Z.even q then q else q + 1.

(** [a / (b * 2 ^ e)] as a fraction of integers, for any sign of [e]. *)
Definition scaled_num (a e : Z) : Z := a * 2 ^ Z.max 0 (- e).
Definition scaled_den (b e : Z) : Z := b * 2 ^ Z.max 0 e.

(** The exponent at which the quotient of positive [a] and [b] has a
    53-bit integer part, not below the exponent of the subnormals. *)
Definition quotient_exponent (a b : Z) : Z :=
  let e0 := Z.log2 a - Z.log2 b - 53 in
  let e1 := if scaled_num a e0 / scaled_den b e0 <? 2 ^ 53 then e0 else e0 + 1 in
  Z.max e1 (-1074).

Definition truediv (a b : Z) : result float :=
  if b =? 0 then Raise ZeroDivisionError
  else if a =? 0 then Ok {| mant := 0; expo := 0 |}
  else
    let e := quotient_exponent (Z.abs a) (Z.abs b) in
    let m := round_half_even (scaled_num (Z.abs a) e) (scaled_den (Z.abs b) e) in
    if (971 <? e) || ((e =? 971) && (m =? 2 ^ 53)) then Raise OverflowError
    else Ok {| mant := Z.sgn a * Z.sgn b * m; expo := e |}.

Definition ceil (x : float) : Z :=
  if 0 <=? expo x then mant x * 2 ^ expo x
  else - ((- mant x) / 2 ^ (- expo x)).

Definition floor (x : float) : Z :=
  if 0 <=? expo x then mant x * 2 ^ expo x
  else mant x / 2 ^ (- expo x).

(** The same value in the Standard Library's specification of binary64
    ([prec = 53], [emax = 1024]); used to cross-check [truediv]. *)
Definition same_value (x : float) (s : spec_float) : bool :=
  match s with
  | S754_zero _ => mant x =? 0
  | S754_finite sg m e =>
      let c := Z.min e (expo x) in
      (if sg then - Z.pos m else Z.pos m) * 2 ^ (e - c) =? mant x * 2 ^ (expo x - c)
  | _ => false
  end.

Definition spec_of_int (a : Z) : spec_float :=
  match a with
  | Z0 => S754_zero false
  | Zpos p => S754_finite false p 0
  | Zneg p => S754_finite true p 0
  end.

Definition agrees_with_binary64 (a b : Z) : bool :=
  match truediv a b with
  | Ok x => same_value x (SFdiv 53 1024 (spec_of_int a) (spec_of_int b))
  | Raise _ => false
  end.

(** ** [%i]: an integer in decimal, with a minus sign when negative *)
Definition format_i (n : Z) : string := NilZero.string_of_int (Z.to_int n).

(** ** The call stack

    A call needs a free frame; [sys.getrecursionlimit()] is 1000 unless
    changed.  A function that calls itself is a [Fixpoint] on the frames
    left and raises [RecursionError] when none is. *)
Definition recursion_limit : nat := 1000.

End Py.

Import Py.

Declare Scope py_scope.
Delimit Scope py_scope with py.
Notation "x <- c ;; k" := (bind c (fun x => k))
(at level 61, c at next level, right associativity) : py_scope.
Local Open Scope py_scope.

(* ================================================================== *)
(** * [datetime.date] and [datetime.timedelta] *)
(* ================================================================== *)

Module datetime.

(** A date is its proleptic Gregorian ordinal ([date.toordinal()]):
    0001-01-01 is day 1 and 9999-12-31 is day 3652059. *)
Record date : Type := { toordinal : Z }.

Record timedelta : Type := { days : Z }.

Definition MINYEAR : Z := 1.
Definition MAXYEAR : Z := 9999.
Definition MAXORDINAL : Z := 3652059.

Definition is_leap (year : Z) : bool :=
  (year mod 4 =? 0) && (negb (year mod 100 =? 0) || (year mod 400 =? 0)).

Definition days_before_year (year : Z) : Z :=
  let y := year - 1 in y * 365 + y / 4 - y / 100 + y / 400.

Definition days_in_month (year month : Z) : Z :=
  if month =? 2 then (if is_leap year then 29 else 28)
  else if (month =? 4) || (month =? 6) || (month =? 9) || (month =? 11) then 30
  else 31.

Fixpoint days_before_month_from (year : Z) (months : nat) : Z :=
  match months with
  | O => 0
  | S k => days_before_month_from year k + days_in_month year (Z.of_nat (S k))
  end.

Definition days_before_month (year month : Z) : Z :=
  days_before_month_from year (Z.to_nat (month - 1)).

(** [datetime.date(year, month, day)] *)
Definition new (year month day : Z) : result date :=
  if negb ((MINYEAR <=? year) && (year <=? MAXYEAR)) then
    Raise (ValueError "year is out of range")
  else if negb ((1 <=? month) && (month <=? 12)) then
    Raise (ValueError "month must be in 1..12")
  else if negb ((1 <=? day) && (day <=? days_in_month year month)) then
    Raise (ValueError "day is out of range for month")
  else
    Ok {| toordinal := days_before_year year + days_before_month year month + day |}.

(** [datetime.timedelta(days=n)] *)
Definition timedelta_new (n : Z) : result timedelta :=
  if Z.abs n <=? 999999999 then Ok {| days := n |} else Raise OverflowError.

(** [date - date] *)
Definition sub (a b : date) : timedelta :=
  {| days := toordinal a - toordinal b |}.

(** [date + timedelta] *)
Definition add (a : date) (t : timedelta) : result date :=
  let o := toordinal a + days t in
  if (0 <? o) && (o <=? MAXORDINAL) then Ok {| toordinal := o |}
  else Raise OverflowError.

Definition eqb (a b : date) : bool := toordinal a =? toordinal b.

End datetime.

(* ================================================================== *)
(** * [class MauvelianSeason] *)
(* ================================================================== *)

Module MauvelianSeason.

Inductive t : Type := ZEPHYR | PHOENIX | SCION | COLOSSUS.

Definition __str__ (self : t) : string :=
  match self with
  | ZEPHYR => "Season of Zephyr"
  | PHOENIX => "Season of Phoenix"
  | SCION => "Season of Scion"
  | COLOSSUS => "Season of Colossus"
  end.

Definition daysRange (self : t) : range :=
  match self with
  | ZEPHYR => {| start := 1; stop := 91 |}
  | PHOENIX => {| start := 91; stop := 181 |}
  | SCION => {| start := 181; stop := 271 |}
  | COLOSSUS => {| start := 271; stop := 366 |}
  end.

Definition seasonOf (day_of_year : Z) : result t :=
  if negb ((1 <=? day_of_year) && (day_of_year <=? 365)) then
    Raise (ValueError "day not in [1; 365] range")
  else if day_of_year <=? 180 then
    (if day_of_year <=? 90 then Ok ZEPHYR else Ok PHOENIX)
  else
    (if day_of_year <=? 270 then Ok SCION else Ok COLOSSUS).

End MauvelianSeason.

(* ================================================================== *)
(** * [class MauvelianDate] *)
(* ================================================================== *)

Module MauvelianDate.

(** The object's only attribute is the day offset [_day]. *)
Record t : Type := { _day : Z }.

(** What the right operand of [-] can be. *)
Inductive operand : Type :=
| Date (other : t)
| Int (days : Z).

(** What [-] returns: a day count, or a date. *)
Inductive difference : Type :=
| Days (n : Z)
| Shifted (d : t).

(** [MauvelianDate(year, day, season=None)] *)
Definition __init__ (year day : Z) (season : option MauvelianSeason.t) : result t :=
  if year =? 0 then Raise (ValueError "year cannot be 0")
  else
    day <- match season with
           | Some s =>
               if negb ((1 <=? day) && (day <=? len (MauvelianSeason.daysRange s)))
               then Raise (ValueError "Day is not valid for this season")
               else Ok (day + (start (MauvelianSeason.daysRange s) - 1))
           | None => Ok day
           end ;;
    if negb ((1 <=? day) && (day <=? 365)) then
      Raise (ValueError "day not in [1; 365] range")
    else if 0 <? year then Ok {| _day := day + 365 * (year - 1) |}
    else Ok {| _day := - day - 365 * (year + 1) |}.

(** [self.year]: the quotient [self._day / 365] is a float. *)
Definition year (self : t) : result Z :=
  if 0 <? _day self then
    q <- truediv (_day self) 365 ;; Ok (ceil q)
  else
    q <- truediv (_day self) 365 ;; Ok (floor q).

(** [self.dayOfYear]: [%] is the floored remainder, [Z.modulo]. *)
Definition dayOfYear (self : t) : Z :=
  let d := Z.abs (_day self mod 365) in
  if d =? 0 then 365 else d.

Definition dayOfSeason (self : t) : result Z :=
  s <- MauvelianSeason.seasonOf (dayOfYear self) ;;
  Ok (dayOfYear self - start (MauvelianSeason.daysRange s) + 1).

Definition season (self : t) : result MauvelianSeason.t :=
  MauvelianSeason.seasonOf (dayOfYear self).

Definition __lt__ (self other : t) : bool := _day self <? _day other.
Definition __gt__ (self other : t) : bool := _day other <? _day self.
Definition __eq__ (self other : t) : bool := _day self =? _day other.

(** [addDays] updates [self] in place and returns it; the value returned
    here is the state of that one object after the call. *)
Definition addDays (self : t) (days : Z) : t :=
  let d := _day self + days in
  if d =? 0 then
    (if 0 <? days then {| _day := 1 |} else {| _day := 1 |})
  else {| _day := d |}.

Definition daysBetween (self other : t) : Z :=
  Z.abs (_day self - _day other).

(** [self + days]: a new object, built from the accessors. *)
Definition __add__ (self : t) (days : Z) : result t :=
  y <- year self ;;
  copy <- __init__ y (dayOfYear self) None ;;
  Ok (addDays copy days).

(** [str(self)]: the three values of the tuple are computed left to
    right, then formatted. *)
Definition __str__ (self : t) : result string :=
  if 0 <? _day self then
    day_of_season <- dayOfSeason self ;;
    s <- season self ;;
    y <- year self ;;
    Ok (format_i day_of_season ++ " " ++ MauvelianSeason.__str__ s ++ ", "
        ++ format_i y ++ "AE")%string
  else
    day_of_season <- dayOfSeason self ;;
    s <- season self ;;
    y <- year self ;;
    Ok (format_i day_of_season ++ " " ++ MauvelianSeason.__str__ s ++ ", "
        ++ format_i (- y) ++ "BE")%string.

(** [self - other] with [frames] frames left on the call stack.  The
    branch for a number of days evaluates [self - other] again, which is
    this very call. *)
Fixpoint __sub__ (frames : nat) (self : t) (other : operand) : result difference :=
  match frames with
  | O => Raise RecursionError
  | S frames' =>
      match other with
      | Date o => Ok (Days (daysBetween self o))
      | Int _ => __sub__ frames' self other
      end
  end.

End MauvelianDate.

(* ================================================================== *)
(** * Objects, classes and names seen by [setReferencePoint] *)
(* ================================================================== *)

Module Namespace.

(** The values a caller can pass where a date is expected. *)
Inductive object : Type :=
| none
| date_object (d : datetime.date)
| MauvelianDate_object (m : MauvelianDate.t)
| int_object (n : Z).

Inductive class : Type :=
| NoneType_class
| date_class
| MauvelianDate_class
| MauvelianSeason_class
| DateConverter_class
| int_class.

Definition isinstance (o : object) (c : class) : bool :=
  match o, c with
  | none, NoneType_class => true
  | date_object _, date_class => true
  | MauvelianDate_object _, MauvelianDate_class => true
  | int_object _, int_class => true
  | _, _ => false
  end.

(** The classes bound to a bare name in [calendar.py]: the three it
    defines ([datetime], [enum] and [math] are bound to modules), then the
    built-in ones.  The class of [None] exists, but neither scope binds
    the name [NoneType] to it. *)
Definition module_globals : list (string * class) :=
  [ ("MauvelianSeason", MauvelianSeason_class);
    ("MauvelianDate", MauvelianDate_class);
    ("DateConverter", DateConverter_class) ].

Definition builtins : list (string * class) :=
  [ ("int", int_class) ].

Fixpoint assoc (name : string) (scope : list (string * class)) : option class :=
  match scope with
  | [] => None
  | (n, c) :: rest => if String.eqb n name then Some c else assoc name rest
  end.

Definition lookup (name : string) : result class :=
  match assoc name module_globals with
  | Some c => Ok c
  | None =>
      match assoc name builtins with
      | Some c => Ok c
      | None => Raise (NameError name)
      end
  end.

Definition as_date (o : object) : option datetime.date :=
  match o with date_object d => Some d | _ => None end.

Definition as_MauvelianDate (o : object) : option MauvelianDate.t :=
  match o with MauvelianDate_object m => Some m | _ => None end.

End Namespace.

(* ================================================================== *)
(** * [class DateConverter] *)
(* ================================================================== *)

Module DateConverter.

Import Namespace.

(** The converter's state is its reference pair.  Only
    [setReferencePoint] assigns it, and only after both [isinstance]
    tests passed or both arguments were found to be [None], so each
    component is a value of its class or [None]. *)
Record t : Type :=
  { _reference : option datetime.date * option MauvelianDate.t }.

(** [DateConverter()]: the class attribute [(None, None)]. *)
Definition new : t := {| _reference := (None, None) |}.

(** Every method returns its outcome and the state of [self] after the
    call. *)

Definition setReferencePoint (self : t) (real_date mauvelian_date : object)
  : result unit * t :=
  let test :=
    if negb (isinstance real_date date_class)
       || negb (isinstance mauvelian_date MauvelianDate_class)
    then
      NoneType <- lookup "NoneType" ;;
      Ok (negb (isinstance real_date NoneType && isinstance mauvelian_date NoneType))
    else Ok false in
  match test with
  | Raise e => (Raise e, self)
  | Ok true => (Raise TypeError, self)
  | Ok false =>
      (Ok tt, {| _reference := (as_date real_date, as_MauvelianDate mauvelian_date) |})
  end.

Definition realToMauvelian (self : t) (real_date : datetime.date)
  : result MauvelianDate.t * t :=
  match _reference self with
  | (Some reference_real, Some reference_mauvelian) =>
      let delta_days := datetime.days (datetime.sub real_date reference_real) in
      (MauvelianDate.__add__ reference_mauvelian delta_days, self)
  | _ => (Raise (RuntimeError "Reference point not set"), self)
  end.

Definition mauvelianToReal (self : t) (mauvelian_date : MauvelianDate.t)
  : result datetime.date * t :=
  match _reference self with
  | (Some reference_real, Some reference_mauvelian) =>
      (delta_days <- MauvelianDate.__sub__ recursion_limit mauvelian_date
                       (MauvelianDate.Date reference_mauvelian) ;;
       dd <- MauvelianDate.__sub__ recursion_limit mauvelian_date
               (MauvelianDate.Date reference_mauvelian) ;;
       match delta_days with
       | MauvelianDate.Days n =>
           delta <- datetime.timedelta_new n ;;
           datetime.add reference_real delta
       | MauvelianDate.Shifted _ => Raise TypeError
       end,
       self)
  | _ => (Raise (RuntimeError "Reference point not set"), self)
  end.

End DateConverter.

(* ================================================================== *)
(** * The objects of the module's self-test *)
(* ================================================================== *)

(** The [__main__] block pairs 2016-11-05 with day 35 of the Season of
    Colossus, 1328 AE.  [self_test_objects] below shows that these are the
    values the constructors and [setReferencePoint] produce. *)
Module SelfTest.

Definition real : datetime.date := {| datetime.toordinal := 736273 |}.

Definition mauvelian : MauvelianDate.t := {| MauvelianDate._day := 484660 |}.

Definition converter : DateConverter.t :=
  {| DateConverter._reference := (Some real, Some mauvelian) |}.

End SelfTest.

(* ================================================================== *)
(** * The properties the specification states *)
(* ================================================================== *)

(** These follow the specification's wording, to be compared with the
    code above. *)
Module Stated.

(** Season by inclusive upper bounds, in the order 90, 180, 270. *)
Definition season_by_upper_bounds (day_of_year : Z) : MauvelianSeason.t :=
  if day_of_year <=? 90 then MauvelianSeason.ZEPHYR
  else if day_of_year <=? 180 then MauvelianSeason.PHOENIX
  else if day_of_year <=? 270 then MauvelianSeason.SCION
  else MauvelianSeason.COLOSSUS.

(** Length of a season: 90 days, 95 for Colossus. *)
Definition season_length (s : MauvelianSeason.t) : Z :=
  match s with MauvelianSeason.COLOSSUS => 95 | _ => 90 end.

(** The day count between a date and the reference, positive when the
    date is after the reference and negative when it is before. *)
Definition signed_delta (d reference : MauvelianDate.t) : Z :=
  if MauvelianDate.__gt__ d reference then MauvelianDate.daysBetween d reference
  else if MauvelianDate.__lt__ d reference then - MauvelianDate.daysBetween d reference
  else 0.

(** The reference real date moved by the signed delta. *)
Definition signed_conversion (reference_real : datetime.date)
    (reference_mauvelian d : MauvelianDate.t) : result datetime.date :=
  delta <- datetime.timedelta_new (signed_delta d reference_mauvelian) ;;
  datetime.add reference_real delta.

(** A Mauvelian date survives the trip to a real date and back. *)
Definition mauvelian_round_trip (c : DateConverter.t) (d : MauvelianDate.t) : Prop :=
  exists r d',
    fst (DateConverter.mauvelianToReal c d) = Ok r /\
    fst (DateConverter.realToMauvelian c r) = Ok d' /\
    MauvelianDate.__eq__ d' d = true.

(** A real date survives the trip to a Mauvelian date and back. *)
Definition real_round_trip (c : DateConverter.t) (r : datetime.date) : Prop :=
  exists d r',
    fst (DateConverter.realToMauvelian c r) = Ok d /\
    fst (DateConverter.mauvelianToReal c d) = Ok r' /\
    datetime.eqb r' r = true.

(** No complete reference pair is stored. *)
Definition reference_not_set (c : DateConverter.t) : Prop :=
  fst (DateConverter._reference c) = None \/ snd (DateConverter._reference c) = None.

End Stated.

(* ================================================================== *)
(** * The runtime model, checked *)
(* ================================================================== *)

(** Splits a conjunction into its parts. *)
Ltac split_all := repeat match goal with |- _ /\ _ => split end.

(** [truediv] against the Standard Library's binary64 division, on small,
    large, negative, subnormal and near-overflow quotients. *)
Example truediv_agrees_with_binary64 :
  forallb (fun ab => agrees_with_binary64 (fst ab) (snd ab))
    [ (1, 365); (364, 365); (365, 365); (366, 365); (484660, 365);
      (-1, 365); (-365, 365); (-484660, 365);
      (365 * 2 ^ 45 - 1, 365); (365 * 2 ^ 45, 365); (365 * 2 ^ 45 + 1, 365);
      (365 * 2 ^ 45 + 183, 365); (2 ^ 53 + 1, 365); (3 ^ 200, 365);
      (365 * 2 ^ 1023, 365); (1, 3); (7, -9); (1, 2 ^ 1074); (1, 2 ^ 1075);
      (3, 2 ^ 1075); (5, 7 * 2 ^ 1070); (2 ^ 1024 - 2 ^ 970 - 1, 1) ] = true.
Proof. vm_compute. reflexivity. Qed.

Example truediv_overflow :
  truediv (365 * 2 ^ 1024) 365 = Raise OverflowError /\
  truediv (2 ^ 1024 - 2 ^ 970) 1 = Raise OverflowError.
Proof. split; vm_compute; reflexivity. Qed.

Example date_ordinals :
  datetime.new 1 1 1 = Ok {| datetime.toordinal := 1 |} /\
  datetime.new 2016 11 5 = Ok {| datetime.toordinal := 736273 |} /\
  datetime.new 9999 12 31 = Ok {| datetime.toordinal := datetime.MAXORDINAL |} /\
  is_ok (datetime.new 2015 2 29) = false /\
  is_ok (datetime.new 2016 2 29) = true.
Proof. split_all; vm_compute; reflexivity. Qed.

(** The binary64 quotient of 365 * 2^45 + 1 by 365, by the Standard
    Library's division: exactly 2^45 (mantissa 2^52, exponent -7), the
    1/365 above it being less than half the spacing 2^-7 of the doubles
    there.  A year earlier, on the first day of year 2^45, the spacing is
    2^-8 and the fraction survives. *)
Example binary64_quotient_past_2_45 :
  SFdiv 53 1024 (spec_of_int (365 * 2 ^ 45 + 1)) (spec_of_int 365)
    = S754_finite false (2 ^ 52) (-7) /\
  truediv (365 * 2 ^ 45 + 1) 365 = Ok {| mant := 2 ^ 52; expo := -7 |} /\
  ceil {| mant := 2 ^ 52; expo := -7 |} = 2 ^ 45 /\
  SFdiv 53 1024 (spec_of_int (365 * 2 ^ 45 - 364)) (spec_of_int 365)
    = S754_finite false (2 ^ 53 - 255) (-8).
Proof. split_all; vm_compute; reflexivity. Qed.

(** [round_half_even] returns the floor of the quotient or the next
    integer. *)
Lemma round_half_even_bounds (num den : Z) :
  num / den <= round_half_even num den <= num / den + 1.
Proof.
  unfold round_half_even.
  destruct (2 * (num mod den) <? den); [lia|].
  destruct (den <? 2 * (num mod den)); [lia|].
  destruct (Z.even (num / den)); lia.
Qed.

Lemma round_half_even_exact (num den : Z) :
  0 < den -> num mod den = 0 -> round_half_even num den = num / den.
Proof.
  intros Hden Hr. unfold round_half_even. rewrite Hr.
  destruct (2 * 0 <? den) eqn:E; [reflexivity|]. apply Z.ltb_ge in E. lia.
Qed.

Lemma round_half_even_up (num den : Z) :
  den < 2 * (num mod den) -> round_half_even num den = num / den + 1.
Proof.
  intros Hr. unfold round_half_even.
  destruct (2 * (num mod den) <? den) eqn:E1; [apply Z.ltb_lt in E1; lia|].
  destruct (den <? 2 * (num mod den)) eqn:E2; [reflexivity|].
  apply Z.ltb_ge in E2. lia.
Qed.

(** Below 365 * 2^45 the quotient by 365 keeps at least eight binary
    places. *)
Lemma quotient_exponent_365 (a : Z) :
  0 < a < 365 * 2 ^ 45 -> -61 <= quotient_exponent a 365 <= -8.
Proof.
  intros [Ha Hb]. unfold quotient_exponent.
  change (Z.log2 365) with 8.
  change (2 ^ 45) with 35184372088832 in Hb.
  assert (Hl : 0 <= Z.log2 a < 54).
  { split; [apply Z.log2_nonneg|]. apply Z.log2_lt_pow2; [lia|].
    change (2 ^ 54) with 18014398509481984. lia. }
  destruct (Z.eq_dec (Z.log2 a) 53) as [E|NE].
  - rewrite E. change (53 - 8 - 53) with (-8).
    unfold scaled_num, scaled_den.
    change (2 ^ Z.max 0 (- -8)) with 256. change (2 ^ Z.max 0 (-8)) with 1.
    assert (Hq : a * 256 / (365 * 1) < 2 ^ 53).
    { apply Z.div_lt_upper_bound; [lia|].
      change (2 ^ 53) with 9007199254740992. lia. }
    apply Z.ltb_lt in Hq. rewrite Hq. lia.
  - destruct (_ <? _); lia.
Qed.

(** Up to 365 * 2^45 the float quotient is close enough to the exact one
    for [math.ceil] to return the exact ceiling. *)
Lemma truediv_365_ceil (a : Z) :
  0 < a <= 365 * 2 ^ 45 ->
  exists x, truediv a 365 = Ok x /\ ceil x = - ((- a) / 365).
Proof.
  intros [Ha Hb].
  destruct (Z.eq_dec a (365 * 2 ^ 45)) as [->|Hne].
  { eexists; split; vm_compute; reflexivity. }
  assert (He := quotient_exponent_365 a ltac:(lia)).
  unfold truediv.
  change (365 =? 0) with false. cbv iota.
  destruct (a =? 0) eqn:E0; [apply Z.eqb_eq in E0; lia|].
  rewrite (Z.abs_eq a) by lia. change (Z.abs 365) with 365.
  set (e := quotient_exponent a 365) in *.
  assert (Hov : (971 <? e)
                || ((e =? 971)
                    && (round_half_even (scaled_num a e) (scaled_den 365 e) =? 2 ^ 53))
                = false).
  { destruct (971 <? e) eqn:E1; [apply Z.ltb_lt in E1; lia|].
    destruct (e =? 971) eqn:E2; [apply Z.eqb_eq in E2; lia|]. reflexivity. }
  rewrite Hov. eexists; split; [reflexivity|].
  unfold ceil; cbn [mant expo].
  destruct (0 <=? e) eqn:E3; [apply Z.leb_le in E3; lia|].
  rewrite (Z.sgn_pos a) by lia. change (Z.sgn 365) with 1. rewrite !Z.mul_1_l.
  unfold scaled_num, scaled_den.
  rewrite (Z.max_r 0 (- e)) by lia. rewrite (Z.max_l 0 e) by lia.
  change (2 ^ 0) with 1. rewrite Z.mul_1_r.
  set (P := 2 ^ (- e)).
  assert (HP : 256 <= P).
  { unfold P. change 256 with (2 ^ 8). apply Z.pow_le_mono_r; lia. }
  set (m := round_half_even (a * P) 365).
  pose proof (round_half_even_bounds (a * P) 365) as Hm. fold m in Hm.
  pose proof (Z.div_mod (a * P) 365 ltac:(lia)) as Hdm.
  pose proof (Z.mod_pos_bound (a * P) 365 ltac:(lia)) as Hr.
  pose proof (Z.div_mod a 365 ltac:(lia)) as Hda.
  pose proof (Z.mod_pos_bound a 365 ltac:(lia)) as Hra.
  f_equal.
  destruct (Z.eq_dec (a mod 365) 0) as [R0|RN].
  - (* the quotient is an integer *)
    assert (Hmod : (a * P) mod 365 = 0).
    { rewrite <- Z.mul_mod_idemp_l by lia. rewrite R0. reflexivity. }
    assert (Em : m = a * P / 365) by (apply round_half_even_exact; [lia|exact Hmod]).
    rewrite Hmod in Hdm.
    assert (Em2 : m = (a / 365) * P) by nia.
    rewrite Em2.
    assert (Ea : - a = (- (a / 365)) * 365) by lia.
    rewrite Ea, Z.div_mul by lia.
    replace (- (a / 365 * P)) with ((- (a / 365)) * P) by lia.
    rewrite Z.div_mul by lia. reflexivity.
  - (* it is not: the rounded mantissa stays strictly above the floor *)
    assert (Hlow : a / 365 * P < m).
    { destruct (Z_lt_le_dec (a / 365 * P) (a * P / 365)) as [L|G]; [lia|].
      assert (a * P / 365 = a / 365 * P) by nia.
      assert ((a * P) mod 365 = (a mod 365) * P) by nia.
      assert (Eu : m = a * P / 365 + 1) by (apply round_half_even_up; nia).
      lia. }
    assert (Hup : m <= (a / 365 + 1) * P) by nia.
    transitivity (- (a / 365 + 1)).
    + symmetry. apply Z.div_unique with (r := (a / 365 + 1) * P - m); [left; lia | lia].
    + apply Z.div_unique with (r := 365 - a mod 365); [left; lia | lia].
Qed.

(** At the exponent chosen for it, the quotient of any positive integer by
    365 is at least 1: the mantissa is never 0. *)
Lemma quotient_at_least_one (a : Z) :
  0 < a ->
  let e := quotient_exponent a 365 in
  scaled_den 365 e <= scaled_num a e.
Proof.
  intros Ha. cbv zeta. unfold quotient_exponent.
  change (Z.log2 365) with 8.
  pose proof (Z.log2_nonneg a) as Hl0.
  pose proof (Z.log2_spec a Ha) as [Hlo _].
  set (l := Z.log2 a) in *.
  set (e1 := if scaled_num a (l - 8 - 53) / scaled_den 365 (l - 8 - 53) <? 2 ^ 53
             then l - 8 - 53 else l - 8 - 53 + 1).
  assert (He1 : l - 61 <= e1 <= l - 60) by (unfold e1; destruct (_ <? _); lia).
  rewrite Z.max_l by lia.
  unfold scaled_num, scaled_den.
  destruct (Z_le_gt_dec e1 0) as [Hneg|Hpos].
  - rewrite (Z.max_l 0 e1), (Z.max_r 0 (- e1)) by lia.
    change (2 ^ 0) with 1.
    assert (2 ^ 60 <= 2 ^ l * 2 ^ (- e1)).
    { rewrite <- Z.pow_add_r by lia. apply Z.pow_le_mono_r; lia. }
    assert (2 ^ l * 2 ^ (- e1) <= a * 2 ^ (- e1)).
    { apply Z.mul_le_mono_nonneg_r; [apply Z.pow_nonneg; lia|exact Hlo]. }
    change (2 ^ 60) with 1152921504606846976 in *. lia.
  - rewrite (Z.max_r 0 e1), (Z.max_l 0 (- e1)) by lia.
    change (2 ^ 0) with 1.
    assert (2 ^ l = 2 ^ e1 * 2 ^ (l - e1)).
    { rewrite <- Z.pow_add_r by lia. f_equal. lia. }
    assert (2 ^ 60 <= 2 ^ (l - e1)) by (apply Z.pow_le_mono_r; lia).
    assert (0 < 2 ^ e1) by (apply Z.pow_pos_nonneg; lia).
    change (2 ^ 60) with 1152921504606846976 in *. nia.
Qed.

(** The quotient of a nonzero offset by 365, when it is a float at all, has
    the sign of the offset and is not zero. *)
Lemma truediv_365_sign (a : Z) (x : float) :
  a <> 0 -> truediv a 365 = Ok x -> 0 < Z.sgn a * mant x.
Proof.
  intros Ha. unfold truediv.
  change (365 =? 0) with false. cbv iota.
  destruct (a =? 0) eqn:E0; [apply Z.eqb_eq in E0; contradiction|].
  change (Z.abs 365) with 365. change (Z.sgn 365) with 1.
  pose proof (quotient_at_least_one (Z.abs a) ltac:(lia)) as Hq. cbv zeta in Hq.
  set (e := quotient_exponent (Z.abs a) 365) in *.
  set (num := scaled_num (Z.abs a) e) in *.
  set (den := scaled_den 365 e) in *.
  assert (Hden : 0 < den).
  { unfold den, scaled_den. apply Z.mul_pos_pos; [lia|]. apply Z.pow_pos_nonneg; lia. }
  pose proof (round_half_even_bounds num den) as Hm.
  assert (1 <= num / den) by (apply Z.div_le_lower_bound; lia).
  destruct (_ || _); [discriminate|].
  intros [= <-]. cbn [mant].
  destruct (Z.sgn_spec a) as [[? ->]|[[? ->]|[? ->]]]; lia.
Qed.

(** On a nonzero offset [year] does not return 0. *)
Lemma year_nonzero (d : MauvelianDate.t) (y : Z) :
  MauvelianDate._day d <> 0 -> MauvelianDate.year d = Ok y -> y <> 0.
Proof.
  intros Hd. unfold MauvelianDate.year.
  destruct (truediv (MauvelianDate._day d) 365) as [x|err] eqn:E;
    [|destruct (0 <? _); discriminate].
  pose proof (truediv_365_sign _ x Hd E) as Hs.
  destruct (0 <? MauvelianDate._day d) eqn:Epos; cbn [bind]; intros [= <-].
  - apply Z.ltb_lt in Epos. rewrite Z.sgn_pos in Hs by lia.
    unfold ceil. destruct (0 <=? expo x) eqn:Ee.
    + apply Z.leb_le in Ee.
      assert (0 < 2 ^ expo x) by (apply Z.pow_pos_nonneg; lia). nia.
    + apply Z.leb_gt in Ee.
      assert (0 < 2 ^ (- expo x)) by (apply Z.pow_pos_nonneg; lia).
      assert (- mant x / 2 ^ (- expo x) < 0) by (apply Z.div_lt_upper_bound; lia).
      lia.
  - apply Z.ltb_ge in Epos. rewrite Z.sgn_neg in Hs by lia.
    unfold floor. destruct (0 <=? expo x) eqn:Ee.
    + apply Z.leb_le in Ee.
      assert (0 < 2 ^ expo x) by (apply Z.pow_pos_nonneg; lia). nia.
    + apply Z.leb_gt in Ee.
      assert (0 < 2 ^ (- expo x)) by (apply Z.pow_pos_nonneg; lia).
      assert (mant x / 2 ^ (- expo x) < 0) by (apply Z.div_lt_upper_bound; lia).
      lia.
Qed.

(* ================================================================== *)
(** * The module's self-test *)
(* ================================================================== *)

(** Every assertion of the [__main__] block holds in the embedding. *)
Example self_test_dates :
  exists date1 date2 sum,
    MauvelianDate.__init__ 1306 76 (Some MauvelianSeason.SCION) = Ok date1 /\
    MauvelianDate.dayOfYear date1 = 256 /\
    MauvelianDate.__init__ 1318 128 None = Ok date2 /\
    MauvelianDate.__lt__ date1 date2 = true /\
    MauvelianDate.season date2 = Ok MauvelianSeason.PHOENIX /\
    MauvelianDate.daysBetween date2 date1 = 365 * 11 + 109 + 128 /\
    MauvelianDate.__add__ date1 (365 * 11 + 109 + 128) = Ok sum /\
    MauvelianDate.__eq__ sum date2 = true.
Proof.
  exists {| MauvelianDate._day := 476581 |}, {| MauvelianDate._day := 480833 |},
         {| MauvelianDate._day := 480833 |}.
  split_all; vm_compute; reflexivity.
Qed.

Example self_test_objects :
  datetime.new 2016 11 5 = Ok SelfTest.real /\
  MauvelianDate.__init__ 1328 35 (Some MauvelianSeason.COLOSSUS) = Ok SelfTest.mauvelian /\
  DateConverter.setReferencePoint DateConverter.new
    (Namespace.date_object SelfTest.real)
    (Namespace.MauvelianDate_object SelfTest.mauvelian)
  = (Ok tt, SelfTest.converter).
Proof. split_all; vm_compute; reflexivity. Qed.

Example self_test_converter :
  fst (DateConverter.realToMauvelian SelfTest.converter SelfTest.real)
    = Ok SelfTest.mauvelian /\
  fst (DateConverter.mauvelianToReal SelfTest.converter SelfTest.mauvelian)
    = Ok SelfTest.real /\
  MauvelianDate.__init__ 1328 41 (Some MauvelianSeason.COLOSSUS)
    = Ok {| MauvelianDate._day := 484666 |} /\
  fst (DateConverter.mauvelianToReal SelfTest.converter
         {| MauvelianDate._day := 484666 |})
    = datetime.new 2016 11 11.
Proof. split_all; vm_compute; reflexivity. Qed.

(* ================================================================== *)
(** * [MauvelianDate]: accessors and arithmetic *)
(* ================================================================== *)

Import MauvelianDate.

Lemma dayOfYear_range (d : t) : 1 <= dayOfYear d <= 365.
Proof.
  unfold dayOfYear.
  pose proof (Z.mod_pos_bound (_day d) 365 ltac:(lia)) as H.
  destruct (Z.abs (_day d mod 365) =? 0) eqn:E; [lia|].
  apply Z.eqb_neq in E. lia.
Qed.

Lemma dayOfYear_after_exodus (y doy : Z) :
  1 <= doy <= 365 -> dayOfYear {| _day := doy + 365 * (y - 1) |} = doy.
Proof.
  intros H. unfold dayOfYear; cbn [_day].
  replace (doy + 365 * (y - 1)) with (doy + (y - 1) * 365) by lia.
  rewrite Z.mod_add by lia.
  destruct (Z.eq_dec doy 365) as [->|N]; [reflexivity|].
  rewrite Z.mod_small by lia.
  destruct (Z.abs doy =? 0) eqn:E; [apply Z.eqb_eq in E|]; lia.
Qed.

(** The year of a positive offset up to 365 * 2^45 is the exact ceiling of
    the quotient. *)
Lemma year_after_exodus (d : t) :
  0 < _day d <= 365 * 2 ^ 45 -> year d = Ok (- ((- _day d) / 365)).
Proof.
  intros H. unfold year.
  destruct (0 <? _day d) eqn:E; [|apply Z.ltb_ge in E; lia].
  destruct (truediv_365_ceil (_day d) H) as [x [-> Hx]].
  cbn [bind]. now rewrite Hx.
Qed.

(** The two-argument constructor on a year after the exodus. *)
Lemma init_after_exodus (y doy : Z) :
  1 <= y -> 1 <= doy <= 365 ->
  __init__ y doy None = Ok {| _day := doy + 365 * (y - 1) |}.
Proof.
  intros Hy Hd. unfold __init__.
  destruct (y =? 0) eqn:E0; [apply Z.eqb_eq in E0; lia|].
  cbn [bind].
  destruct (1 <=? doy) eqn:E1; [|apply Z.leb_gt in E1; lia].
  destruct (doy <=? 365) eqn:E2; [|apply Z.leb_gt in E2; lia].
  cbn [andb negb].
  destruct (0 <? y) eqn:E3; [reflexivity|apply Z.ltb_ge in E3; lia].
Qed.

Lemma year_of_after_exodus (y doy : Z) :
  1 <= y <= 2 ^ 45 -> 1 <= doy <= 365 ->
  year {| _day := doy + 365 * (y - 1) |} = Ok y.
Proof.
  intros Hy Hd. change (2 ^ 45) with 35184372088832 in Hy.
  rewrite year_after_exodus.
  - cbn [_day]. f_equal.
    assert (E : - (doy + 365 * (y - 1)) / 365 = - y).
    { symmetry. apply Z.div_unique with (r := 365 - doy); [left|]; lia. }
    rewrite E. lia.
  - cbn [_day]. change (2 ^ 45) with 35184372088832. lia.
Qed.

(** Every positive offset is a day 1..365 of a year 1, 2, ... *)
Lemma offset_after_exodus (n : Z) :
  0 < n ->
  exists y doy, 1 <= y /\ 1 <= doy <= 365 /\ n = doy + 365 * (y - 1) /\ 365 * (y - 1) < n.
Proof.
  intros H.
  pose proof (Z.div_mod n 365 ltac:(lia)) as Hdm.
  pose proof (Z.mod_pos_bound n 365 ltac:(lia)) as Hr.
  destruct (Z.eq_dec (n mod 365) 0) as [E|E].
  - exists (n / 365), 365. lia.
  - exists (n / 365 + 1), (n mod 365). lia.
Qed.

(** A positive offset up to 365 * 2^45 is rebuilt by the constructor from
    the object's own accessors. *)
Lemma rebuilt_copy (d : t) :
  0 < _day d <= 365 * 2 ^ 45 ->
  exists y, year d = Ok y /\ __init__ y (dayOfYear d) None = Ok d.
Proof.
  intros H. destruct d as [n]; cbn [_day] in H.
  change (2 ^ 45) with 35184372088832 in H.
  destruct (offset_after_exodus n ltac:(lia)) as [y [doy [Hy [Hdoy [Hn Hlt]]]]].
  assert (Hy' : 1 <= y <= 2 ^ 45) by (change (2 ^ 45) with 35184372088832; lia).
  exists y. rewrite Hn.
  rewrite (year_of_after_exodus y doy Hy' Hdoy).
  rewrite (dayOfYear_after_exodus y doy Hdoy).
  split; [reflexivity|]. now apply init_after_exodus.
Qed.

(** X4.  Years 1 to 2^45, constructor without a season: [year] and
    [dayOfYear] return what the constructor was given. *)
Lemma construct_then_read_after_exodus (y doy : Z) :
  1 <= y <= 2 ^ 45 -> 1 <= doy <= 365 ->
  exists d,
    __init__ y doy None = Ok d /\ year d = Ok y /\ dayOfYear d = doy.
Proof.
  intros Hy Hd. exists {| _day := doy + 365 * (y - 1) |}.
  split; [|split].
  - apply init_after_exodus; lia.
  - now apply year_of_after_exodus.
  - now apply dayOfYear_after_exodus.
Qed.

(** X22.  A date with a positive offset up to 365 * 2^45 is rebuilt by the
    constructor from its own [year] and [dayOfYear], so adding no days
    returns an equal date. *)
Lemma rebuild_from_accessors (d : t) :
  0 < _day d <= 365 * 2 ^ 45 ->
  exists y,
    year d = Ok y /\
    __init__ y (dayOfYear d) None = Ok d /\
    __add__ d 0 = Ok d.
Proof.
  intros H. destruct (rebuilt_copy d H) as [y [Hy Hi]].
  exists y. split; [exact Hy|]. split; [exact Hi|].
  unfold __add__. rewrite Hy. cbn [bind]. rewrite Hi. cbn [bind].
  unfold addDays. rewrite Z.add_0_r.
  destruct (_day d =? 0) eqn:E; [apply Z.eqb_eq in E; lia|].
  now destruct d.
Qed.

Lemma addDays_never_zero (d : t) (n : Z) : _day (addDays d n) <> 0.
Proof.
  unfold addDays.
  destruct (_day d + n =? 0) eqn:E.
  - destruct (0 <? n); cbn; lia.
  - apply Z.eqb_neq in E. exact E.
Qed.

(** X23.  Any non-empty sequence of [addDays] calls on one object leaves
    its offset away from 0. *)
Lemma addDays_sequence_never_zero (d : t) (ns : list Z) :
  ns <> [] -> _day (fold_left addDays ns d) <> 0.
Proof.
  destruct ns as [|n ns] using rev_ind; [congruence|].
  intros _. rewrite fold_left_app. cbn [fold_left]. apply addDays_never_zero.
Qed.

Lemma daysBetween_sym (a b : t) : daysBetween a b = daysBetween b a.
Proof. unfold daysBetween. lia. Qed.

Lemma daysBetween_nonneg (a b : t) : 0 <= daysBetween a b.
Proof. unfold daysBetween. lia. Qed.

Lemma sub_Date (frames : nat) (self other : t) :
  __sub__ (S frames) self (Date other) = Ok (Days (daysBetween self other)).
Proof. reflexivity. Qed.

(* ================================================================== *)
(** * Construction and the accessors *)
(* ================================================================== *)

(** C1 (the code departs from the claim).  The claim: for every nonzero
    year and every day of year in 1..365, [year] and [dayOfYear] of the
    constructed date return the arguments.  For years before the exodus the
    code does not: [MauvelianDate(-1, 1)] reads back as day 364, and
    [MauvelianDate(-2, 1)] gets the positive offset 364 and reads back as
    year 1, day 364. *)
Theorem before_exodus_dates_read_back_wrong :
  (__init__ (-1) 1 None = Ok {| _day := -1 |} /\
   year {| _day := -1 |} = Ok (-1) /\
   dayOfYear {| _day := -1 |} = 364) /\
  (__init__ (-2) 1 None = Ok {| _day := 364 |} /\
   year {| _day := 364 |} = Ok 1 /\
   dayOfYear {| _day := 364 |} = 364).
Proof. split_all; vm_compute; reflexivity. Qed.

(** C2 (the code departs from the claim).  The claim: no constructed date
    has offset 0 and [year] never returns 0.  The last day of year -2, given
    as a day of the year or as day 95 of Colossus, is built with offset 0,
    and its [year] is 0. *)
Theorem constructor_yields_offset_zero :
  __init__ (-2) 365 None = Ok {| _day := 0 |} /\
  __init__ (-2) 95 (Some MauvelianSeason.COLOSSUS) = Ok {| _day := 0 |} /\
  year {| _day := 0 |} = Ok 0.
Proof. split_all; vm_compute; reflexivity. Qed.

(** C10 (the code departs from the claim).  The claim: a date with a
    positive offset equals the date rebuilt from its own [year] and
    [dayOfYear], hence [d + 0 == d].  [year] divides in binary64: on the
    first day of year 2^45 + 1 the quotient 2^45 + 1/365 rounds to 2^45, the
    rebuilt date is a year early, and adding no days changes the date. *)
Theorem rebuilt_date_a_year_early_past_2_45 :
  __init__ (2 ^ 45 + 1) 1 None = Ok {| _day := 365 * 2 ^ 45 + 1 |} /\
  year {| _day := 365 * 2 ^ 45 + 1 |} = Ok (2 ^ 45) /\
  dayOfYear {| _day := 365 * 2 ^ 45 + 1 |} = 1 /\
  __init__ (2 ^ 45) 1 None = Ok {| _day := 365 * (2 ^ 45 - 1) + 1 |} /\
  __add__ {| _day := 365 * 2 ^ 45 + 1 |} 0 = Ok {| _day := 365 * (2 ^ 45 - 1) + 1 |} /\
  __eq__ {| _day := 365 * (2 ^ 45 - 1) + 1 |} {| _day := 365 * 2 ^ 45 + 1 |} = false.
Proof. split_all; vm_compute; reflexivity. Qed.

(* ================================================================== *)
(** * Seasons *)
(* ================================================================== *)

Lemma seasonOf_by_upper_bounds (day_of_year : Z) :
  1 <= day_of_year <= 365 ->
  MauvelianSeason.seasonOf day_of_year = Ok (Stated.season_by_upper_bounds day_of_year).
Proof.
  intros H. unfold MauvelianSeason.seasonOf, Stated.season_by_upper_bounds.
  destruct (1 <=? day_of_year) eqn:E1; [|apply Z.leb_gt in E1; lia].
  destruct (day_of_year <=? 365) eqn:E2; [|apply Z.leb_gt in E2; lia].
  cbn [andb negb].
  destruct (day_of_year <=? 180) eqn:E3, (day_of_year <=? 90) eqn:E4,
           (day_of_year <=? 270) eqn:E5; try reflexivity;
  repeat match goal with
         | H : (_ <=? _) = true |- _ => apply Z.leb_le in H
         | H : (_ <=? _) = false |- _ => apply Z.leb_gt in H
         end; lia.
Qed.

Lemma season_by_upper_bounds_range (day_of_year : Z) :
  1 <= day_of_year <= 365 ->
  let r := MauvelianSeason.daysRange (Stated.season_by_upper_bounds day_of_year) in
  start r <= day_of_year < stop r /\
  stop r - start r = Stated.season_length (Stated.season_by_upper_bounds day_of_year).
Proof.
  intros H. unfold Stated.season_by_upper_bounds.
  destruct (day_of_year <=? 90) eqn:E1;
  [|destruct (day_of_year <=? 180) eqn:E2;
    [|destruct (day_of_year <=? 270) eqn:E3]];
  repeat match goal with
         | H : (_ <=? _) = true |- _ => apply Z.leb_le in H
         | H : (_ <=? _) = false |- _ => apply Z.leb_gt in H
         end; cbn; lia.
Qed.

(** C9.  For a day of year in 1..365 [seasonOf] returns the season given by
    the inclusive upper bounds 90, 180 and 270 (Colossus above); and for
    every date, [dayOfYear] lies in the range of the season returned and
    [dayOfSeason] is [dayOfYear] minus the season's first day plus 1, between
    1 and the season's length (90, or 95 for Colossus). *)
Theorem season_and_dayOfSeason (d : t) (day_of_year : Z) :
  (1 <= day_of_year <= 365 ->
   MauvelianSeason.seasonOf day_of_year
   = Ok (Stated.season_by_upper_bounds day_of_year)) /\
  exists s,
    season d = Ok s /\
    s = Stated.season_by_upper_bounds (dayOfYear d) /\
    contains (MauvelianSeason.daysRange s) (dayOfYear d) = true /\
    dayOfSeason d = Ok (dayOfYear d - start (MauvelianSeason.daysRange s) + 1) /\
    1 <= dayOfYear d - start (MauvelianSeason.daysRange s) + 1
      <= Stated.season_length s.
Proof.
  split; [apply seasonOf_by_upper_bounds|].
  pose proof (dayOfYear_range d) as Hr.
  pose proof (seasonOf_by_upper_bounds _ Hr) as Hs.
  pose proof (season_by_upper_bounds_range _ Hr) as [Hin Hlen].
  exists (Stated.season_by_upper_bounds (dayOfYear d)).
  unfold season, dayOfSeason. rewrite Hs. cbn [bind].
  split_all; try reflexivity; try lia.
  unfold contains. apply andb_true_intro. split; [apply Z.leb_le|apply Z.ltb_lt]; lia.
Qed.

Lemma season_and_dayOfSeason_witness :
  MauvelianSeason.seasonOf 271 = Ok MauvelianSeason.COLOSSUS /\
  dayOfSeason {| _day := 476581 |} = Ok 76.
Proof.
  split.
  - apply (proj1 (season_and_dayOfSeason {| _day := 476581 |} 271)). lia.
  - destruct (proj2 (season_and_dayOfSeason {| _day := 476581 |} 271))
      as [s [_ [-> [_ [H _]]]]]. exact H.
Defined.

(* ================================================================== *)
(** * Day arithmetic *)
(* ================================================================== *)

(** C8.  [addDays(n)] moves the offset by exactly [n], except that a sum of
    exactly 0 becomes offset 1, whatever the sign of [n]. *)
Theorem addDays_offset (d : t) (n : Z) :
  (_day d + n <> 0 -> _day (addDays d n) = _day d + n) /\
  (_day d + n = 0 -> _day (addDays d n) = 1).
Proof.
  unfold addDays. split; intros H.
  - destruct (_day d + n =? 0) eqn:E; [apply Z.eqb_eq in E; contradiction|reflexivity].
  - rewrite H. cbn. destruct (0 <? n); reflexivity.
Qed.

Lemma addDays_offset_witness :
  _day (addDays {| _day := 5 |} 3) = 8 /\
  _day (addDays {| _day := 5 |} (-5)) = 1 /\
  _day (addDays {| _day := -5 |} 5) = 1.
Proof.
  split; [|split].
  - apply (proj1 (addDays_offset {| _day := 5 |} 3)). cbn. lia.
  - apply (proj2 (addDays_offset {| _day := 5 |} (-5))). reflexivity.
  - apply (proj2 (addDays_offset {| _day := -5 |} 5)). reflexivity.
Defined.

(** C5 (the code departs from the claim).  The claim: [d - n] for a number
    of days [n] is a new date, [addDays(-n)] of a copy.  The code's branch
    for a number evaluates [self - other] again: whatever the stack depth,
    the date and the number, the call ends in [RecursionError]. *)
Theorem subtracting_days_exhausts_the_stack (frames : nat) (self : t) (n : Z) :
  __sub__ frames self (Int n) = Raise RecursionError.
Proof.
  induction frames as [|frames IH]; [reflexivity|]. cbn [__sub__]. exact IH.
Qed.

(* ================================================================== *)
(** * [DateConverter] *)
(* ================================================================== *)

Import DateConverter.

(** With a reference pair stored, [mauvelianToReal] moves the reference
    real date by [daysBetween], a magnitude, for every input. *)
Lemma mauvelianToReal_unsigned (reference_real : datetime.date)
    (reference_mauvelian d : MauvelianDate.t) :
  mauvelianToReal
    {| _reference := (Some reference_real, Some reference_mauvelian) |} d
  = (delta <- datetime.timedelta_new (daysBetween d reference_mauvelian) ;;
     datetime.add reference_real delta,
     {| _reference := (Some reference_real, Some reference_mauvelian) |}).
Proof. reflexivity. Qed.

(** X24.  For an input that is not before the reference Mauvelian date,
    [mauvelianToReal] returns the reference real date moved by the signed
    delta the specification describes. *)
Lemma mauvelianToReal_signed_from_reference_on (reference_real : datetime.date)
    (reference_mauvelian d : MauvelianDate.t) :
  __lt__ d reference_mauvelian = false ->
  fst (mauvelianToReal
         {| _reference := (Some reference_real, Some reference_mauvelian) |} d)
  = Stated.signed_conversion reference_real reference_mauvelian d.
Proof.
  intros H. rewrite mauvelianToReal_unsigned. cbn [fst].
  unfold Stated.signed_conversion, Stated.signed_delta. rewrite H.
  unfold __lt__ in H. apply Z.ltb_ge in H.
  unfold __gt__. destruct (_day reference_mauvelian <? _day d) eqn:E; [reflexivity|].
  apply Z.ltb_ge in E. unfold daysBetween.
  replace (_day d - _day reference_mauvelian) with 0 by lia. reflexivity.
Qed.

(** C3 (the code departs from the claim).  The claim: [mauvelianToReal]
    returns the reference real date moved by a delta that is negative when
    the input is before the reference.  [__sub__] returns [daysBetween], an
    absolute value, and the code adds it as it is: with the self-test's
    reference, the day before the reference date converts to 2016-11-06, the
    day after 2016-11-05, where the signed delta gives 2016-11-04. *)
Theorem mauvelianToReal_day_before_reference :
  MauvelianDate.__init__ 1328 34 (Some MauvelianSeason.COLOSSUS)
    = Ok {| _day := 484659 |} /\
  __lt__ {| _day := 484659 |} SelfTest.mauvelian = true /\
  fst (mauvelianToReal SelfTest.converter {| _day := 484659 |})
    = datetime.new 2016 11 6 /\
  Stated.signed_conversion SelfTest.real SelfTest.mauvelian {| _day := 484659 |}
    = datetime.new 2016 11 4.
Proof. split_all; vm_compute; reflexivity. Qed.

Lemma SelfTest_add (delta : Z) :
  __add__ SelfTest.mauvelian delta = Ok (addDays SelfTest.mauvelian delta).
Proof.
  unfold __add__.
  replace (year SelfTest.mauvelian) with (Ok 1328) by (vm_compute; reflexivity).
  cbn [bind].
  replace (__init__ 1328 (dayOfYear SelfTest.mauvelian) None)
    with (Ok SelfTest.mauvelian) by (vm_compute; reflexivity).
  reflexivity.
Qed.

Lemma timedelta_new_small (n : Z) :
  Z.abs n <= 999999999 -> datetime.timedelta_new n = Ok {| datetime.days := n |}.
Proof.
  intros H. unfold datetime.timedelta_new.
  destruct (Z.abs n <=? 999999999) eqn:E; [reflexivity|apply Z.leb_gt in E; lia].
Qed.

Lemma date_add_in_range (a : datetime.date) (n : Z) :
  0 < datetime.toordinal a + n <= datetime.MAXORDINAL ->
  datetime.add a {| datetime.days := n |}
  = Ok {| datetime.toordinal := datetime.toordinal a + n |}.
Proof.
  intros [H1 H2]. unfold datetime.add. cbn [datetime.days].
  apply Z.ltb_lt in H1. apply Z.leb_le in H2. now rewrite H1, H2.
Qed.

(** The trip from a Mauvelian date at or after the reference, no further
    than the last real date. *)
Lemma mauvelian_round_trip_SelfTest (d : MauvelianDate.t) :
  _day SelfTest.mauvelian <= _day d
    <= _day SelfTest.mauvelian
       + (datetime.MAXORDINAL - datetime.toordinal SelfTest.real) ->
  Stated.mauvelian_round_trip SelfTest.converter d.
Proof.
  unfold SelfTest.mauvelian, SelfTest.real, datetime.MAXORDINAL.
  cbn [_day datetime.toordinal]. intros H.
  assert (Hn : exists n, _day d = 484660 + n /\ 0 <= n <= 2915786)
    by (exists (_day d - 484660); lia).
  destruct Hn as [n [Hd Hn]].
  exists {| datetime.toordinal := 736273 + n |}, {| _day := 484660 + n |}.
  split; [|split].
  - unfold SelfTest.converter. rewrite mauvelianToReal_unsigned. cbn [fst].
    unfold daysBetween, SelfTest.mauvelian. cbn [_day]. rewrite Hd.
    replace (484660 + n - 484660) with n by lia.
    rewrite Z.abs_eq by lia.
    rewrite timedelta_new_small by lia. cbn [bind].
    apply date_add_in_range.
    unfold SelfTest.real, datetime.MAXORDINAL. cbn [datetime.toordinal]. lia.
  - unfold realToMauvelian, SelfTest.converter. cbn [_reference fst].
    rewrite SelfTest_add. f_equal.
    unfold addDays, datetime.sub, SelfTest.mauvelian, SelfTest.real.
    cbn [_day datetime.toordinal datetime.days].
    replace (484660 + (736273 + n - 736273)) with (484660 + n) by lia.
    destruct (484660 + n =? 0) eqn:E; [apply Z.eqb_eq in E; lia|reflexivity].
  - unfold __eq__. cbn [_day]. rewrite Hd. apply Z.eqb_refl.
Qed.

(** The trip from a real date at or after the reference. *)
Lemma real_round_trip_SelfTest (r : datetime.date) :
  datetime.toordinal SelfTest.real <= datetime.toordinal r <= datetime.MAXORDINAL ->
  Stated.real_round_trip SelfTest.converter r.
Proof.
  unfold SelfTest.real, datetime.MAXORDINAL. cbn [datetime.toordinal]. intros H.
  assert (Hn : exists n, datetime.toordinal r = 736273 + n /\ 0 <= n <= 2915786)
    by (exists (datetime.toordinal r - 736273); lia).
  destruct Hn as [n [Hr Hn]].
  exists {| _day := 484660 + n |}, {| datetime.toordinal := 736273 + n |}.
  split; [|split].
  - unfold realToMauvelian, SelfTest.converter. cbn [_reference fst].
    rewrite SelfTest_add. f_equal.
    unfold addDays, datetime.sub, SelfTest.mauvelian, SelfTest.real.
    cbn [_day datetime.toordinal datetime.days]. rewrite Hr.
    replace (484660 + (736273 + n - 736273)) with (484660 + n) by lia.
    destruct (484660 + n =? 0) eqn:E; [apply Z.eqb_eq in E; lia|reflexivity].
  - unfold SelfTest.converter. rewrite mauvelianToReal_unsigned. cbn [fst].
    unfold daysBetween, SelfTest.mauvelian. cbn [_day].
    replace (484660 + n - 484660) with n by lia.
    rewrite Z.abs_eq by lia.
    rewrite timedelta_new_small by lia. cbn [bind].
    apply date_add_in_range.
    unfold SelfTest.real, datetime.MAXORDINAL. cbn [datetime.toordinal]. lia.
  - unfold datetime.eqb. cbn [datetime.toordinal]. rewrite Hr. apply Z.eqb_refl.
Qed.

(** C4, as amended.  For the converter whose reference pair is 2016-11-05
    and day 35 of Colossus 1328, built as the self-test builds it: every
    Mauvelian date from the reference date on whose real date is no later
    than 9999-12-31 comes back from [mauvelianToReal] then [realToMauvelian]
    as an equal date, and every real date from 2016-11-05 on comes back from
    [realToMauvelian] then [mauvelianToReal] as an equal date. *)
Theorem round_trip_from_reference_on
    (real r : datetime.date) (mauvelian d : MauvelianDate.t) (c : DateConverter.t) :
  datetime.new 2016 11 5 = Ok real ->
  MauvelianDate.__init__ 1328 35 (Some MauvelianSeason.COLOSSUS) = Ok mauvelian ->
  setReferencePoint DateConverter.new
    (Namespace.date_object real) (Namespace.MauvelianDate_object mauvelian)
  = (Ok tt, c) ->
  _day mauvelian <= _day d
    <= _day mauvelian + (datetime.MAXORDINAL - datetime.toordinal real) ->
  datetime.toordinal real <= datetime.toordinal r <= datetime.MAXORDINAL ->
  Stated.mauvelian_round_trip c d /\ Stated.real_round_trip c r.
Proof.
  intros Hreal Hmauvelian Hc Hd Hr.
  destruct self_test_objects as [Ereal [Emauvelian Ec]].
  rewrite Ereal in Hreal. injection Hreal as <-.
  rewrite Emauvelian in Hmauvelian. injection Hmauvelian as <-.
  rewrite Ec in Hc. injection Hc as <-.
  split.
  - now apply mauvelian_round_trip_SelfTest.
  - now apply real_round_trip_SelfTest.
Qed.

Lemma round_trip_from_reference_on_witness :
  Stated.mauvelian_round_trip SelfTest.converter {| _day := 484666 |} /\
  Stated.real_round_trip SelfTest.converter {| datetime.toordinal := 736279 |}.
Proof.
  apply (round_trip_from_reference_on SelfTest.real {| datetime.toordinal := 736279 |}
           SelfTest.mauvelian {| _day := 484666 |} SelfTest.converter).
  - vm_compute. reflexivity.
  - vm_compute. reflexivity.
  - vm_compute. reflexivity.
  - unfold SelfTest.mauvelian, SelfTest.real, datetime.MAXORDINAL.
    cbn [_day datetime.toordinal]. lia.
  - unfold SelfTest.real, datetime.MAXORDINAL. cbn [datetime.toordinal]. lia.
Defined.

(** C4, as stated, fails: the first day of year 10000 is a Mauvelian date,
    but its real date would lie after 9999-12-31, the last [datetime.date];
    [mauvelianToReal] raises [OverflowError] and there is no trip back. *)
Lemma round_trip_fails_past_last_real_date :
  MauvelianDate.__init__ 10000 1 None = Ok {| _day := 3649636 |} /\
  fst (mauvelianToReal SelfTest.converter {| _day := 3649636 |}) = Raise OverflowError /\
  ~ Stated.mauvelian_round_trip SelfTest.converter {| _day := 3649636 |}.
Proof.
  split; [vm_compute; reflexivity|].
  assert (E : fst (mauvelianToReal SelfTest.converter {| _day := 3649636 |})
              = Raise OverflowError) by (vm_compute; reflexivity).
  split; [exact E|].
  intros [r [d' [H _]]]. rewrite E in H. discriminate.
Qed.

(** Before the reference neither trip closes: the day before the reference
    comes back as the day after it, in both directions. *)
Lemma round_trip_before_reference :
  fst (mauvelianToReal SelfTest.converter {| _day := 484659 |})
    = Ok {| datetime.toordinal := 736274 |} /\
  fst (realToMauvelian SelfTest.converter {| datetime.toordinal := 736274 |})
    = Ok {| _day := 484661 |} /\
  fst (realToMauvelian SelfTest.converter {| datetime.toordinal := 736272 |})
    = Ok {| _day := 484659 |}.
Proof. split_all; vm_compute; reflexivity. Qed.

(** Both arguments of their classes: the pair is stored. *)
Lemma setReferencePoint_stores_pair (self : DateConverter.t)
    (real : datetime.date) (mauvelian : MauvelianDate.t) :
  setReferencePoint self (Namespace.date_object real)
    (Namespace.MauvelianDate_object mauvelian)
  = (Ok tt, {| _reference := (Some real, Some mauvelian) |}).
Proof. reflexivity. Qed.

(** A call that raises stores nothing. *)
Lemma setReferencePoint_failure_keeps_state (self : DateConverter.t)
    (real_date mauvelian_date : Namespace.object) (e : exn) :
  fst (setReferencePoint self real_date mauvelian_date) = Raise e ->
  snd (setReferencePoint self real_date mauvelian_date) = self.
Proof.
  unfold setReferencePoint.
  destruct (negb _ || negb _); [|discriminate].
  destruct (Namespace.lookup "NoneType") as [c|e']; cbn [bind]; [|reflexivity].
  destruct (negb _); [reflexivity|discriminate].
Qed.

(** C6 (the code departs from the claim).  The claim: a pair with exactly
    one element supplied is refused with [TypeError], and clearing both
    succeeds.  The test that tells the two apart names [NoneType], which the
    module never binds: with a real date alone, a Mauvelian date alone, or
    both [None], the call raises [NameError] and stores nothing. *)
Theorem setReferencePoint_unpaired_raises_NameError
    (self : DateConverter.t) (real : datetime.date) (mauvelian : MauvelianDate.t) :
  setReferencePoint self (Namespace.date_object real) Namespace.none
    = (Raise (NameError "NoneType"), self) /\
  setReferencePoint self Namespace.none (Namespace.MauvelianDate_object mauvelian)
    = (Raise (NameError "NoneType"), self) /\
  setReferencePoint self Namespace.none Namespace.none
    = (Raise (NameError "NoneType"), self).
Proof. split_all; reflexivity. Qed.

(** C7.  On a converter that holds no complete reference pair, both
    conversions raise [RuntimeError] ("Reference point not set"), for every
    argument, and leave the converter as it was. *)
Theorem conversions_need_reference
    (c : DateConverter.t) (r : datetime.date) (d : MauvelianDate.t) :
  Stated.reference_not_set c ->
  realToMauvelian c r = (Raise (RuntimeError "Reference point not set"), c) /\
  mauvelianToReal c d = (Raise (RuntimeError "Reference point not set"), c).
Proof.
  unfold Stated.reference_not_set, realToMauvelian, mauvelianToReal.
  destruct c as [[[real|] [mauvelian|]]]; cbn [_reference fst snd];
    intros [H|H]; try discriminate; split; reflexivity.
Qed.

Lemma new_reference_not_set : Stated.reference_not_set DateConverter.new.
Proof. left. reflexivity. Qed.

Lemma conversions_need_reference_witness :
  realToMauvelian DateConverter.new SelfTest.real
    = (Raise (RuntimeError "Reference point not set"), DateConverter.new) /\
  mauvelianToReal DateConverter.new SelfTest.mauvelian
    = (Raise (RuntimeError "Reference point not set"), DateConverter.new).
Proof.
  apply (conversions_need_reference DateConverter.new SelfTest.real SelfTest.mauvelian).
  left. reflexivity.
Defined.

(* ================================================================== *)
(** * Further properties: seasons and construction *)
(* ================================================================== *)

(** Turns the boolean comparisons recorded in the context into
    propositions. *)
Ltac comparisons :=
  repeat match goal with
         | H : (_ <=? _) = true |- _ => apply Z.leb_le in H
         | H : (_ <=? _) = false |- _ => apply Z.leb_gt in H
         | H : (_ <? _) = true |- _ => apply Z.ltb_lt in H
         | H : (_ <? _) = false |- _ => apply Z.ltb_ge in H
         | H : (_ =? _) = true |- _ => apply Z.eqb_eq in H
         | H : (_ =? _) = false |- _ => apply Z.eqb_neq in H
         end.

Lemma contains_spec (r : range) (x : Z) :
  contains r x = true <-> start r <= x < stop r.
Proof.
  unfold contains. rewrite andb_true_iff, Z.leb_le, Z.ltb_lt. reflexivity.
Qed.

(** [seasonOf] returns a season exactly on the days of its range. *)
Lemma seasonOf_spec (day : Z) (s : MauvelianSeason.t) :
  MauvelianSeason.seasonOf day = Ok s
  <-> start (MauvelianSeason.daysRange s) <= day < stop (MauvelianSeason.daysRange s).
Proof.
  unfold MauvelianSeason.seasonOf.
  destruct (1 <=? day) eqn:E1, (day <=? 365) eqn:E2, (day <=? 180) eqn:E3,
           (day <=? 90) eqn:E4, (day <=? 270) eqn:E5;
    cbn [andb negb]; comparisons;
    destruct s; cbn [MauvelianSeason.daysRange start stop];
    (split; intros H; first [discriminate | reflexivity | lia]).
Qed.

Lemma seasonOf_raises (day : Z) :
  ~ 1 <= day <= 365 ->
  MauvelianSeason.seasonOf day = Raise (ValueError "day not in [1; 365] range").
Proof.
  intros H. unfold MauvelianSeason.seasonOf.
  destruct (1 <=? day) eqn:E1, (day <=? 365) eqn:E2; cbn [andb negb];
    comparisons; first [reflexivity | lia].
Qed.

(** A valid day of a season is handed on as a day of the year. *)
Lemma init_with_season (year day : Z) (s : MauvelianSeason.t) :
  1 <= day <= len (MauvelianSeason.daysRange s) ->
  __init__ year day (Some s)
  = __init__ year (day + (start (MauvelianSeason.daysRange s) - 1)) None.
Proof.
  intros H. unfold __init__.
  destruct (year =? 0); [reflexivity|].
  destruct (1 <=? day) eqn:E1, (day <=? len (MauvelianSeason.daysRange s)) eqn:E2;
    comparisons; try lia.
  reflexivity.
Qed.

(** X1.  [seasonOf] inverts [daysRange]: a day lies in the range of a
    season exactly when [seasonOf] returns that season, so the four ranges
    are disjoint and cover 1..365; outside 1..365 [seasonOf] raises
    [ValueError]. *)
Theorem seasonOf_inverts_daysRange (day : Z) (s : MauvelianSeason.t) :
  (contains (MauvelianSeason.daysRange s) day = true
   <-> MauvelianSeason.seasonOf day = Ok s) /\
  (~ 1 <= day <= 365 ->
   MauvelianSeason.seasonOf day = Raise (ValueError "day not in [1; 365] range")).
Proof.
  split.
  - rewrite contains_spec, seasonOf_spec. reflexivity.
  - apply seasonOf_raises.
Qed.

Lemma seasonOf_inverts_daysRange_witness :
  MauvelianSeason.seasonOf 180 = Ok MauvelianSeason.PHOENIX /\
  MauvelianSeason.seasonOf 366 = Raise (ValueError "day not in [1; 365] range").
Proof.
  split.
  - apply (proj1 (proj1 (seasonOf_inverts_daysRange 180 MauvelianSeason.PHOENIX))).
    reflexivity.
  - apply (proj2 (seasonOf_inverts_daysRange 366 MauvelianSeason.ZEPHYR)). lia.
Defined.

Lemma season_range_within_year (s : MauvelianSeason.t) (day : Z) :
  1 <= day <= len (MauvelianSeason.daysRange s) ->
  1 <= day + (start (MauvelianSeason.daysRange s) - 1) <= 365 /\
  start (MauvelianSeason.daysRange s)
    <= day + (start (MauvelianSeason.daysRange s) - 1)
    < stop (MauvelianSeason.daysRange s).
Proof. destruct s; cbn; lia. Qed.

(** X2.  What the constructor returns or raises.  Year 0 is refused first,
    whatever the day; then a day outside the season's length when a season
    is given, or outside 1..365 when none is; every other call succeeds.  A
    valid day of a season never fails the later test on the day of year. *)
Theorem init_outcomes (year day : Z) (season : option MauvelianSeason.t) :
  (year = 0 ->
   __init__ year day season = Raise (ValueError "year cannot be 0")) /\
  (year <> 0 ->
   forall s, season = Some s ->
   ~ 1 <= day <= len (MauvelianSeason.daysRange s) ->
   __init__ year day season = Raise (ValueError "Day is not valid for this season")) /\
  (year <> 0 -> season = None -> ~ 1 <= day <= 365 ->
   __init__ year day season = Raise (ValueError "day not in [1; 365] range")) /\
  (is_ok (__init__ year day season) = true
   <-> year <> 0 /\
       1 <= day <= match season with
                   | Some s => len (MauvelianSeason.daysRange s)
                   | None => 365
                   end).
Proof.
  unfold __init__. split_all.
  - intros ->. reflexivity.
  - intros Hy s -> Hd.
    destruct (year =? 0) eqn:E0; comparisons; [contradiction|].
    destruct (1 <=? day) eqn:E1, (day <=? len (MauvelianSeason.daysRange s)) eqn:E2;
      cbn [andb negb bind]; comparisons; first [reflexivity | lia].
  - intros Hy -> Hd.
    destruct (year =? 0) eqn:E0; comparisons; [contradiction|]. cbn [bind].
    destruct (1 <=? day) eqn:E1, (day <=? 365) eqn:E2;
      cbn [andb negb]; comparisons; first [reflexivity | lia].
  - destruct (year =? 0) eqn:E0; comparisons.
    { split; [discriminate | intros [H _]; contradiction]. }
    destruct season as [s|].
    + destruct (1 <=? day) eqn:E1, (day <=? len (MauvelianSeason.daysRange s)) eqn:E2;
        cbn [andb negb bind]; comparisons;
        try (split; [discriminate | intros [_ H]; lia]).
      pose proof (season_range_within_year s day ltac:(lia)) as [[Ha Hb] _].
      apply Z.leb_le in Ha, Hb. rewrite Ha, Hb. cbn [andb negb].
      destruct (0 <? year); cbn; (split; [intros _; split; [exact E0|lia] | reflexivity]).
    + cbn [bind].
      destruct (1 <=? day) eqn:E1, (day <=? 365) eqn:E2;
        cbn [andb negb]; comparisons;
        try (split; [discriminate | intros [_ H]; lia]).
      destruct (0 <? year); cbn; (split; [intros _; split; [exact E0|lia] | reflexivity]).
Qed.

Lemma init_outcomes_witness :
  __init__ 0 1 None = Raise (ValueError "year cannot be 0") /\
  __init__ 1 91 (Some MauvelianSeason.ZEPHYR)
    = Raise (ValueError "Day is not valid for this season") /\
  __init__ 1 366 None = Raise (ValueError "day not in [1; 365] range") /\
  is_ok (__init__ 1 95 (Some MauvelianSeason.COLOSSUS)) = true.
Proof.
  split_all.
  - apply (proj1 (init_outcomes 0 1 None)). reflexivity.
  - apply (proj1 (proj2 (init_outcomes 1 91 (Some MauvelianSeason.ZEPHYR)))
             ltac:(lia) MauvelianSeason.ZEPHYR eq_refl).
    cbn. lia.
  - apply (proj1 (proj2 (proj2 (init_outcomes 1 366 None))) ltac:(lia) eq_refl). lia.
  - apply (proj2 (proj2 (proj2 (proj2 (init_outcomes 1 95 (Some MauvelianSeason.COLOSSUS)))))).
    cbn. lia.
Defined.

(** X3.  A valid day of a season builds the same date as the matching day
    of the year: [day + (first day of the season) - 1], as the constructor's
    docstring says of (1, 95) and (1, 5, PHOENIX). *)
Theorem season_constructor_shifts_day (year day : Z) (s : MauvelianSeason.t) :
  1 <= day <= len (MauvelianSeason.daysRange s) ->
  __init__ year day (Some s)
  = __init__ year (day + (start (MauvelianSeason.daysRange s) - 1)) None.
Proof. apply init_with_season. Qed.

Lemma season_constructor_shifts_day_witness :
  __init__ 1 5 (Some MauvelianSeason.PHOENIX) = __init__ 1 95 None.
Proof.
  apply (season_constructor_shifts_day 1 5 MauvelianSeason.PHOENIX). cbn. lia.
Defined.

(** X5.  Years 1 to 2^45, constructor with a season: [year], [season] and
    [dayOfSeason] return the three arguments. *)
Theorem season_constructor_round_trip (y day : Z) (s : MauvelianSeason.t) :
  1 <= y <= 2 ^ 45 ->
  1 <= day <= len (MauvelianSeason.daysRange s) ->
  exists d,
    __init__ y day (Some s) = Ok d /\
    year d = Ok y /\
    season d = Ok s /\
    dayOfSeason d = Ok day.
Proof.
  intros Hy Hd.
  pose proof (season_range_within_year s day Hd) as [Hdoy Hin].
  set (doy := day + (start (MauvelianSeason.daysRange s) - 1)) in *.
  exists {| _day := doy + 365 * (y - 1) |}.
  assert (Hs : MauvelianSeason.seasonOf doy = Ok s).
  { apply seasonOf_spec. lia. }
  split_all.
  - rewrite init_with_season by exact Hd.
    apply init_after_exodus; lia.
  - now apply year_of_after_exodus.
  - unfold season. now rewrite dayOfYear_after_exodus.
  - unfold dayOfSeason. rewrite dayOfYear_after_exodus by exact Hdoy.
    rewrite Hs. cbn [bind]. f_equal. unfold doy. lia.
Qed.

Lemma season_constructor_round_trip_witness :
  exists d,
    __init__ 1306 76 (Some MauvelianSeason.SCION) = Ok d /\
    year d = Ok 1306 /\
    season d = Ok MauvelianSeason.SCION /\
    dayOfSeason d = Ok 76.
Proof.
  apply (season_constructor_round_trip 1306 76 MauvelianSeason.SCION).
  - change (2 ^ 45) with 35184372088832. lia.
  - cbn. lia.
Defined.

(* ================================================================== *)
(** * Further properties: accessors, order and day arithmetic *)
(* ================================================================== *)

(** The quotient of a negative integer is the quotient of its opposite
    with the mantissa negated. *)
Lemma truediv_opp (a : Z) :
  truediv (- a) 365
  = match truediv a 365 with
    | Ok x => Ok {| mant := - mant x; expo := expo x |}
    | Raise e => Raise e
    end.
Proof.
  unfold truediv. change (365 =? 0) with false. cbv iota.
  rewrite Z.abs_opp, Z.sgn_opp.
  destruct (a =? 0) eqn:E0; comparisons.
  - subst a. reflexivity.
  - destruct (- a =? 0) eqn:E1; comparisons; [lia|].
    destruct (_ || _); [reflexivity|].
    cbn [mant expo]. f_equal. f_equal. lia.
Qed.

Lemma floor_opp (x : float) :
  floor {| mant := - mant x; expo := expo x |} = - ceil x.
Proof.
  unfold floor, ceil. cbn [mant expo].
  destruct (0 <=? expo x); lia.
Qed.

(** Down to -365 * 2^45 the float quotient is close enough to the exact
    one for [math.floor] to return the exact floor. *)
Lemma truediv_365_floor (a : Z) :
  - (365 * 2 ^ 45) <= a < 0 ->
  exists x, truediv a 365 = Ok x /\ floor x = a / 365.
Proof.
  intros H.
  assert (Ha : 0 < - a <= 365 * 2 ^ 45).
  { change (2 ^ 45) with 35184372088832 in *. lia. }
  destruct (truediv_365_ceil (- a) Ha) as [x [Hx Hc]].
  exists {| mant := - mant x; expo := expo x |}. split.
  - replace a with (- - a) by lia. rewrite truediv_opp, Hx. reflexivity.
  - rewrite floor_opp, Hc, !Z.opp_involutive. reflexivity.
Qed.

(** X6.  For every offset of magnitude 1 to 365 * 2^45, [year] returns
    the exact ceiling of [_day / 365] on a positive offset and the exact
    floor on a negative one: the float quotient costs nothing there. *)
Theorem year_exact_within_2_45 (d : MauvelianDate.t) :
  0 < Z.abs (_day d) <= 365 * 2 ^ 45 ->
  year d = Ok (if 0 <? _day d then - ((- _day d) / 365) else _day d / 365).
Proof.
  intros H. change (2 ^ 45) with 35184372088832 in H.
  destruct (0 <? _day d) eqn:E; comparisons.
  - apply year_after_exodus. change (2 ^ 45) with 35184372088832. lia.
  - unfold year. apply Z.ltb_ge in E. rewrite E.
    assert (Hb : - (365 * 2 ^ 45) <= _day d < 0).
    { change (2 ^ 45) with 35184372088832. lia. }
    destruct (truediv_365_floor (_day d) Hb) as [x [-> Hx]].
    cbn [bind]. now rewrite Hx.
Qed.

Lemma year_exact_within_2_45_witness :
  year {| _day := 476581 |} = Ok 1306 /\ year {| _day := -366 |} = Ok (-2).
Proof.
  split.
  - apply (year_exact_within_2_45 {| _day := 476581 |}). cbn [_day].
    change (2 ^ 45) with 35184372088832. lia.
  - apply (year_exact_within_2_45 {| _day := -366 |}). cbn [_day].
    change (2 ^ 45) with 35184372088832. lia.
Defined.

Lemma ceil_sign (x : float) : 0 < mant x -> 1 <= ceil x.
Proof.
  intros H. unfold ceil. destruct (0 <=? expo x) eqn:Ee; comparisons.
  - assert (0 < 2 ^ expo x) by (apply Z.pow_pos_nonneg; lia). nia.
  - assert (0 < 2 ^ (- expo x)) by (apply Z.pow_pos_nonneg; lia).
    assert (- mant x / 2 ^ (- expo x) < 0) by (apply Z.div_lt_upper_bound; lia).
    lia.
Qed.

Lemma floor_sign (x : float) : mant x < 0 -> floor x <= -1.
Proof.
  intros H. unfold floor. destruct (0 <=? expo x) eqn:Ee; comparisons.
  - assert (0 < 2 ^ expo x) by (apply Z.pow_pos_nonneg; lia). nia.
  - assert (0 < 2 ^ (- expo x)) by (apply Z.pow_pos_nonneg; lia).
    assert (mant x / 2 ^ (- expo x) < 0) by (apply Z.div_lt_upper_bound; lia).
    lia.
Qed.

(** X7.  Whatever the size of the offset, a year that [year] returns has
    the sign of the offset: at least 1 after the exodus, at most -1 before,
    and 0 only for offset 0. *)
Theorem year_sign (d : MauvelianDate.t) (y : Z) :
  year d = Ok y ->
  (0 < _day d -> 1 <= y) /\ (_day d < 0 -> y <= -1) /\ (_day d = 0 -> y = 0).
Proof.
  unfold year. intros H.
  destruct (truediv (_day d) 365) as [x|err] eqn:E;
    [|destruct (0 <? _day d); discriminate].
  split_all; intros Hd.
  - pose proof (truediv_365_sign (_day d) x ltac:(lia) E) as Hs.
    rewrite Z.sgn_pos in Hs by lia.
    apply Z.ltb_lt in Hd. rewrite Hd in H. cbn [bind] in H. injection H as <-.
    apply ceil_sign. lia.
  - pose proof (truediv_365_sign (_day d) x ltac:(lia) E) as Hs.
    rewrite Z.sgn_neg in Hs by lia.
    assert (Hn : (0 <? _day d) = false) by (apply Z.ltb_ge; lia).
    rewrite Hn in H. cbn [bind] in H. injection H as <-.
    apply floor_sign. lia.
  - rewrite Hd in *. revert E H. cbn. intros [= <-]. cbn. intros [= <-]. reflexivity.
Qed.

Lemma year_sign_witness :
  (0 < _day {| _day := 476581 |} -> 1 <= 1306) /\
  (_day {| _day := 476581 |} < 0 -> 1306 <= -1) /\
  (_day {| _day := 476581 |} = 0 -> 1306 = 0).
Proof.
  apply (year_sign {| _day := 476581 |} 1306). vm_compute. reflexivity.
Defined.

(** X8.  The comparisons order dates by their offset, totally: of [<],
    [==] and [>] exactly one holds, [>] is [<] with the operands swapped,
    [<] is transitive, and [==] holds exactly for equal dates. *)
Theorem comparison_total_order (a b c : MauvelianDate.t) :
  ((__lt__ a b = true /\ __eq__ a b = false /\ __gt__ a b = false) \/
   (__lt__ a b = false /\ __eq__ a b = true /\ __gt__ a b = false) \/
   (__lt__ a b = false /\ __eq__ a b = false /\ __gt__ a b = true)) /\
  __gt__ a b = __lt__ b a /\
  (__lt__ a b = true -> __lt__ b c = true -> __lt__ a c = true) /\
  (__eq__ a b = true <-> a = b).
Proof.
  unfold __lt__, __gt__, __eq__. split_all.
  - destruct (_day a <? _day b) eqn:E1, (_day a =? _day b) eqn:E2,
             (_day b <? _day a) eqn:E3; comparisons; try lia; tauto.
  - reflexivity.
  - intros H1 H2. comparisons. apply Z.ltb_lt. lia.
  - rewrite Z.eqb_eq. destruct a, b. cbn [_day].
    split; [intros ->; reflexivity | intros [= ->]; reflexivity].
Qed.

Lemma comparison_total_order_witness :
  __lt__ {| _day := 1 |} {| _day := 3 |} = true.
Proof.
  apply (proj1 (proj2 (proj2 (comparison_total_order
           {| _day := 1 |} {| _day := 2 |} {| _day := 3 |}))));
    reflexivity.
Defined.

(** X9.  After the exodus the offset keeps the calendar's order: of two
    dates built from years 1, 2, ... the first is [<] the second exactly
    when its year is smaller, or the years are equal and its day is. *)
Theorem after_exodus_order (y1 d1 y2 d2 : Z) :
  1 <= y1 -> 1 <= d1 <= 365 -> 1 <= y2 -> 1 <= d2 <= 365 ->
  exists a b,
    __init__ y1 d1 None = Ok a /\
    __init__ y2 d2 None = Ok b /\
    (__lt__ a b = true <-> y1 < y2 \/ (y1 = y2 /\ d1 < d2)).
Proof.
  intros Hy1 Hd1 Hy2 Hd2.
  exists {| _day := d1 + 365 * (y1 - 1) |}, {| _day := d2 + 365 * (y2 - 1) |}.
  split_all; try (apply init_after_exodus; assumption).
  unfold __lt__. cbn [_day]. rewrite Z.ltb_lt. lia.
Qed.

Lemma after_exodus_order_witness :
  exists a b,
    __init__ 1306 256 None = Ok a /\
    __init__ 1318 128 None = Ok b /\
    (__lt__ a b = true <-> 1306 < 1318 \/ (1306 = 1318 /\ 256 < 128)).
Proof. apply (after_exodus_order 1306 256 1318 128); lia. Defined.

(** X10.  [daysBetween] is a distance on offsets: symmetric, never
    negative, 0 exactly between dates that compare equal, and never more
    than the way round through a third date. *)
Theorem daysBetween_metric (a b c : MauvelianDate.t) :
  daysBetween a b = daysBetween b a /\
  0 <= daysBetween a b /\
  (daysBetween a b = 0 <-> __eq__ a b = true) /\
  daysBetween a c <= daysBetween a b + daysBetween b c.
Proof.
  unfold daysBetween, __eq__. rewrite Z.eqb_eq. split_all; lia.
Qed.

(** X11.  Between two dates after the exodus [daysBetween] counts 365
    days for every year of difference and one for every day of the year. *)
Theorem daysBetween_after_exodus (y1 d1 y2 d2 : Z) :
  1 <= y1 -> 1 <= d1 <= 365 -> 1 <= y2 -> 1 <= d2 <= 365 ->
  exists a b,
    __init__ y1 d1 None = Ok a /\
    __init__ y2 d2 None = Ok b /\
    daysBetween a b = Z.abs (365 * (y1 - y2) + (d1 - d2)).
Proof.
  intros Hy1 Hd1 Hy2 Hd2.
  exists {| _day := d1 + 365 * (y1 - 1) |}, {| _day := d2 + 365 * (y2 - 1) |}.
  split_all; try (apply init_after_exodus; assumption).
  unfold daysBetween. cbn [_day]. f_equal. lia.
Qed.

Lemma daysBetween_after_exodus_witness :
  exists a b,
    __init__ 1318 128 None = Ok a /\
    __init__ 1306 256 None = Ok b /\
    daysBetween a b = Z.abs (365 * (1318 - 1306) + (128 - 256)).
Proof. apply (daysBetween_after_exodus 1318 128 1306 256); lia. Defined.

(** X12.  Two [addDays] calls in a row are one call with the sum of the
    days, provided the first does not land on offset 0 (where it is sent
    to 1). *)
Theorem addDays_compose (d : MauvelianDate.t) (a b : Z) :
  _day d + a <> 0 ->
  addDays (addDays d a) b = addDays d (a + b).
Proof.
  intros H. unfold addDays.
  destruct (_day d + a =? 0) eqn:E; comparisons; [contradiction|].
  cbn [_day]. rewrite Z.add_assoc.
  destruct (_day d + a + b =? 0); [|reflexivity].
  destruct (0 <? b), (0 <? a + b); reflexivity.
Qed.

Lemma addDays_compose_witness :
  addDays (addDays {| _day := 5 |} 3) (-8) = addDays {| _day := 5 |} (3 + -8).
Proof. apply (addDays_compose {| _day := 5 |} 3 (-8)). cbn [_day]. lia. Defined.

(** X13.  Moving a date after the exodus by whole years, forward or back,
    without leaving the years 1 to 2^45: [dayOfYear] is unchanged and
    [year] moves by the number of years. *)
Theorem addDays_whole_years (y doy k : Z) :
  1 <= y <= 2 ^ 45 -> 1 <= doy <= 365 -> 1 <= y + k <= 2 ^ 45 ->
  exists d,
    __init__ y doy None = Ok d /\
    dayOfYear (addDays d (365 * k)) = doy /\
    year (addDays d (365 * k)) = Ok (y + k).
Proof.
  intros Hy Hd Hk. exists {| _day := doy + 365 * (y - 1) |}.
  assert (E : addDays {| _day := doy + 365 * (y - 1) |} (365 * k)
              = {| _day := doy + 365 * (y + k - 1) |}).
  { unfold addDays. cbn [_day].
    change (2 ^ 45) with 35184372088832 in *.
    destruct (doy + 365 * (y - 1) + 365 * k =? 0) eqn:E; comparisons; [lia|].
    f_equal. lia. }
  rewrite E. split_all.
  - apply init_after_exodus; lia.
  - now apply dayOfYear_after_exodus.
  - now apply year_of_after_exodus.
Qed.

Lemma addDays_whole_years_witness :
  exists d,
    __init__ 1306 256 None = Ok d /\
    dayOfYear (addDays d (365 * 12)) = 256 /\
    year (addDays d (365 * 12)) = Ok (1306 + 12).
Proof.
  apply (addDays_whole_years 1306 256 12);
    change (2 ^ 45) with 35184372088832; lia.
Defined.

(** [self + days] on a positive offset up to 365 * 2^45. *)
Lemma add_after_exodus (d : MauvelianDate.t) (n : Z) :
  0 < _day d <= 365 * 2 ^ 45 -> __add__ d n = Ok (addDays d n).
Proof.
  intros H. destruct (rebuilt_copy d H) as [y [Hy Hi]].
  unfold __add__. rewrite Hy. cbn [bind]. rewrite Hi. reflexivity.
Qed.

(** X14.  For a date with a positive offset up to 365 * 2^45, [d + n] is
    what [addDays(n)] makes of a copy of [d]; unless the sum of offset and
    days is 0, the result is [n] days from [d], forward for a positive [n]
    and back for a negative one. *)
Theorem add_is_addDays_on_copy (d : MauvelianDate.t) (n : Z) :
  0 < _day d <= 365 * 2 ^ 45 ->
  exists sum,
    __add__ d n = Ok sum /\
    sum = addDays d n /\
    (_day d + n <> 0 ->
     _day sum = _day d + n /\ daysBetween sum d = Z.abs n /\
     (0 < n -> __gt__ sum d = true) /\ (n < 0 -> __lt__ sum d = true)).
Proof.
  intros H. exists (addDays d n).
  split; [now apply add_after_exodus|]. split; [reflexivity|].
  intros Hn. unfold addDays.
  destruct (_day d + n =? 0) eqn:E; comparisons; [contradiction|].
  unfold daysBetween, __gt__, __lt__. cbn [_day].
  split_all; try lia; intros Hs; apply Z.ltb_lt; lia.
Qed.

Lemma add_is_addDays_on_copy_witness :
  exists sum,
    __add__ {| _day := 476581 |} 4252 = Ok sum /\
    sum = addDays {| _day := 476581 |} 4252 /\
    (_day {| _day := 476581 |} + 4252 <> 0 ->
     _day sum = _day {| _day := 476581 |} + 4252 /\
     daysBetween sum {| _day := 476581 |} = Z.abs 4252 /\
     (0 < 4252 -> __gt__ sum {| _day := 476581 |} = true) /\
     (4252 < 0 -> __lt__ sum {| _day := 476581 |} = true)).
Proof.
  apply (add_is_addDays_on_copy {| _day := 476581 |} 4252).
  cbn [_day]. change (2 ^ 45) with 35184372088832. lia.
Defined.

(** X15.  The text of a date built for a year 1 to 2^45 shows the
    constructor's own arguments: the day of the season, the season's name,
    the year, and AE. *)
Theorem str_after_exodus (y day : Z) (s : MauvelianSeason.t) :
  1 <= y <= 2 ^ 45 ->
  1 <= day <= len (MauvelianSeason.daysRange s) ->
  exists d,
    __init__ y day (Some s) = Ok d /\
    __str__ d
    = Ok (format_i day ++ " " ++ MauvelianSeason.__str__ s ++ ", "
          ++ format_i y ++ "AE")%string.
Proof.
  intros Hy Hd.
  pose proof (season_range_within_year s day Hd) as [Hdoy Hin].
  set (doy := day + (start (MauvelianSeason.daysRange s) - 1)) in *.
  exists {| _day := doy + 365 * (y - 1) |}.
  split.
  - rewrite init_with_season by exact Hd. apply init_after_exodus; lia.
  - assert (Hs : MauvelianSeason.seasonOf doy = Ok s) by (apply seasonOf_spec; lia).
    unfold __str__. cbn [_day].
    assert (Hpos : (0 <? doy + 365 * (y - 1)) = true) by (apply Z.ltb_lt; lia).
    rewrite Hpos. unfold dayOfSeason, season.
    rewrite dayOfYear_after_exodus by exact Hdoy. rewrite Hs. cbn [bind].
    rewrite year_of_after_exodus by assumption. cbn [bind].
    replace (doy - start (MauvelianSeason.daysRange s) + 1) with day
      by (unfold doy; lia).
    reflexivity.
Qed.

Lemma str_after_exodus_witness :
  exists d,
    __init__ 1306 76 (Some MauvelianSeason.SCION) = Ok d /\
    __str__ d = Ok "76 Season of Scion, 1306AE".
Proof.
  apply (str_after_exodus 1306 76 MauvelianSeason.SCION).
  - change (2 ^ 45) with 35184372088832. lia.
  - cbn. lia.
Defined.

(* ================================================================== *)
(** * Further properties: the converter *)
(* ================================================================== *)

(** The two ways a call of [setReferencePoint] can end. *)
Lemma setReferencePoint_cases (self : DateConverter.t)
    (real_date mauvelian_date : Namespace.object) :
  (exists r m,
     real_date = Namespace.date_object r /\
     mauvelian_date = Namespace.MauvelianDate_object m /\
     setReferencePoint self real_date mauvelian_date
     = (Ok tt, {| _reference := (Some r, Some m) |})) \/
  (Namespace.isinstance real_date Namespace.date_class
   && Namespace.isinstance mauvelian_date Namespace.MauvelianDate_class = false /\
   setReferencePoint self real_date mauvelian_date
   = (Raise (NameError "NoneType"), self)).
Proof.
  destruct real_date, mauvelian_date;
    first [ right; split; reflexivity
          | left; do 2 eexists; split_all; reflexivity ].
Qed.

(** X16.  [setReferencePoint] has two outcomes, for arguments of any
    kind.  A [datetime.date] with a [MauvelianDate] is stored as the new
    reference pair.  Every other pair of arguments ([None], numbers, the
    two classes swapped) raises [NameError] and leaves the converter as it
    was: the [TypeError] the method means to raise is never raised. *)
Theorem setReferencePoint_outcomes (self : DateConverter.t)
    (real_date mauvelian_date : Namespace.object) :
  (Namespace.isinstance real_date Namespace.date_class
   && Namespace.isinstance mauvelian_date Namespace.MauvelianDate_class = true ->
   exists r m,
     real_date = Namespace.date_object r /\
     mauvelian_date = Namespace.MauvelianDate_object m /\
     setReferencePoint self real_date mauvelian_date
     = (Ok tt, {| _reference := (Some r, Some m) |})) /\
  (Namespace.isinstance real_date Namespace.date_class
   && Namespace.isinstance mauvelian_date Namespace.MauvelianDate_class = false ->
   setReferencePoint self real_date mauvelian_date
   = (Raise (NameError "NoneType"), self)) /\
  fst (setReferencePoint self real_date mauvelian_date) <> Raise TypeError.
Proof.
  destruct (setReferencePoint_cases self real_date mauvelian_date)
    as [[r [m [-> [-> E]]]] | [Hi E]]; rewrite E; split_all.
  - intros _. now exists r, m.
  - discriminate.
  - discriminate.
  - rewrite Hi. discriminate.
  - reflexivity.
  - discriminate.
Qed.

Lemma setReferencePoint_outcomes_witness :
  setReferencePoint SelfTest.converter (Namespace.int_object 7)
    (Namespace.MauvelianDate_object SelfTest.mauvelian)
  = (Raise (NameError "NoneType"), SelfTest.converter).
Proof.
  apply (proj1 (proj2 (setReferencePoint_outcomes SelfTest.converter
           (Namespace.int_object 7)
           (Namespace.MauvelianDate_object SelfTest.mauvelian)))).
  reflexivity.
Defined.

(** X17.  Whatever calls of [setReferencePoint] a converter has seen
    since it was created, its reference pair is either unset on both sides
    or set on both: it never holds one half of a pair. *)
Theorem reference_pair_invariant
    (calls : list (Namespace.object * Namespace.object)) :
  _reference
    (fold_left (fun c call => snd (setReferencePoint c (fst call) (snd call)))
       calls DateConverter.new) = (None, None) \/
  exists r m,
    _reference
      (fold_left (fun c call => snd (setReferencePoint c (fst call) (snd call)))
         calls DateConverter.new) = (Some r, Some m).
Proof.
  induction calls as [|[a b] calls IH] using rev_ind.
  - left. reflexivity.
  - rewrite fold_left_app. cbn [fold_left fst snd].
    set (c := fold_left _ calls DateConverter.new) in *.
    destruct (setReferencePoint_cases c a b) as [[r [m [_ [_ E]]]] | [_ E]];
      rewrite E; cbn [snd].
    + right. now exists r, m.
    + exact IH.
Qed.

(** X18.  With a reference pair whose Mauvelian date has a positive
    offset up to 365 * 2^45, [realToMauvelian] returns, for every real
    date, the reference Mauvelian date moved by the signed number of days
    from the reference real date ([addDays] on a copy): it never raises,
    never returns offset 0, and leaves the stored pair as it was. *)
Theorem realToMauvelian_shifts_reference
    (reference_real r : datetime.date) (reference_mauvelian : MauvelianDate.t) :
  0 < _day reference_mauvelian <= 365 * 2 ^ 45 ->
  realToMauvelian
    {| _reference := (Some reference_real, Some reference_mauvelian) |} r
  = (Ok (addDays reference_mauvelian
           (datetime.toordinal r - datetime.toordinal reference_real)),
     {| _reference := (Some reference_real, Some reference_mauvelian) |}) /\
  _day (addDays reference_mauvelian
          (datetime.toordinal r - datetime.toordinal reference_real)) <> 0.
Proof.
  intros H. split; [|apply addDays_never_zero].
  unfold realToMauvelian. cbn [_reference].
  rewrite add_after_exodus by exact H. reflexivity.
Qed.

Lemma realToMauvelian_shifts_reference_witness :
  realToMauvelian SelfTest.converter {| datetime.toordinal := 736272 |}
  = (Ok (addDays SelfTest.mauvelian (736272 - 736273)), SelfTest.converter) /\
  _day (addDays SelfTest.mauvelian (736272 - 736273)) <> 0.
Proof.
  apply (realToMauvelian_shifts_reference SelfTest.real
           {| datetime.toordinal := 736272 |} SelfTest.mauvelian).
  unfold SelfTest.mauvelian. cbn [_day].
  change (2 ^ 45) with 35184372088832. lia.
Defined.

(** X19.  Under the same condition on the reference, [realToMauvelian]
    keeps the order of real dates: a later real date never converts to an
    earlier Mauvelian date. *)
Theorem realToMauvelian_monotone
    (reference_real r1 r2 : datetime.date) (reference_mauvelian : MauvelianDate.t) :
  0 < _day reference_mauvelian <= 365 * 2 ^ 45 ->
  datetime.toordinal r1 <= datetime.toordinal r2 ->
  exists d1 d2,
    fst (realToMauvelian
           {| _reference := (Some reference_real, Some reference_mauvelian) |} r1)
      = Ok d1 /\
    fst (realToMauvelian
           {| _reference := (Some reference_real, Some reference_mauvelian) |} r2)
      = Ok d2 /\
    __gt__ d1 d2 = false.
Proof.
  intros H Hr. unfold realToMauvelian. cbn [_reference fst].
  rewrite !add_after_exodus by exact H.
  do 2 eexists. split; [reflexivity|]. split; [reflexivity|].
  unfold datetime.sub. cbn [datetime.days].
  set (k1 := datetime.toordinal r1 - datetime.toordinal reference_real).
  set (k2 := datetime.toordinal r2 - datetime.toordinal reference_real).
  assert (Hk : k1 <= k2) by (unfold k1, k2; lia).
  clearbody k1 k2.
  unfold __gt__, addDays.
  destruct (_day reference_mauvelian + k1 =? 0) eqn:E1,
           (_day reference_mauvelian + k2 =? 0) eqn:E2;
    comparisons;
    destruct (0 <? k1), (0 <? k2); cbn [_day]; apply Z.ltb_ge; lia.
Qed.

Lemma realToMauvelian_monotone_witness :
  exists d1 d2,
    fst (realToMauvelian SelfTest.converter {| datetime.toordinal := 251613 |})
      = Ok d1 /\
    fst (realToMauvelian SelfTest.converter {| datetime.toordinal := 251614 |})
      = Ok d2 /\
    __gt__ d1 d2 = false.
Proof.
  apply (realToMauvelian_monotone SelfTest.real
           {| datetime.toordinal := 251613 |} {| datetime.toordinal := 251614 |}
           SelfTest.mauvelian).
  - unfold SelfTest.mauvelian. cbn [_day].
    change (2 ^ 45) with 35184372088832. lia.
  - cbn [datetime.toordinal]. lia.
Defined.

(** X20.  With a reference pair stored whose real date is a date of the
    calendar, [mauvelianToReal] returns the reference real date moved
    forward by [daysBetween] of the input and the reference Mauvelian date
    when that day is no later than 9999-12-31, and raises [OverflowError]
    otherwise; the converter is left as it was. *)
Theorem mauvelianToReal_outcomes
    (reference_real : datetime.date) (reference_mauvelian d : MauvelianDate.t) :
  1 <= datetime.toordinal reference_real <= datetime.MAXORDINAL ->
  mauvelianToReal
    {| _reference := (Some reference_real, Some reference_mauvelian) |} d
  = (if datetime.toordinal reference_real + daysBetween d reference_mauvelian
        <=? datetime.MAXORDINAL
     then Ok {| datetime.toordinal :=
                  datetime.toordinal reference_real
                  + daysBetween d reference_mauvelian |}
     else Raise OverflowError,
     {| _reference := (Some reference_real, Some reference_mauvelian) |}).
Proof.
  unfold datetime.MAXORDINAL. intros H.
  rewrite mauvelianToReal_unsigned. f_equal.
  pose proof (daysBetween_nonneg d reference_mauvelian) as Hn.
  set (n := daysBetween d reference_mauvelian) in *.
  unfold datetime.timedelta_new.
  destruct (Z.abs n <=? 999999999) eqn:E1; comparisons; cbn [bind].
  - unfold datetime.add, datetime.MAXORDINAL. cbn [datetime.days].
    destruct (0 <? datetime.toordinal reference_real + n) eqn:E2; comparisons;
      [|lia].
    reflexivity.
  - destruct (datetime.toordinal reference_real + n <=? 3652059) eqn:E2;
      comparisons; [lia|reflexivity].
Qed.

Lemma mauvelianToReal_outcomes_witness :
  mauvelianToReal SelfTest.converter {| _day := 484666 |}
  = (Ok {| datetime.toordinal := 736279 |}, SelfTest.converter).
Proof.
  apply (mauvelianToReal_outcomes SelfTest.real SelfTest.mauvelian
           {| _day := 484666 |}).
  unfold SelfTest.real, datetime.MAXORDINAL. cbn [datetime.toordinal]. lia.
Defined.

(** X21.  The round trips hold from the reference on for every reference
    pair, not only the self-test's: with a real date of the calendar paired
    with a Mauvelian date of positive offset up to 365 * 2^45, every real
    date from the reference to 9999-12-31 and every Mauvelian date from the
    reference to the one paired with 9999-12-31 comes back equal. *)
Theorem round_trip_any_reference
    (reference_real r : datetime.date) (reference_mauvelian d : MauvelianDate.t) :
  1 <= datetime.toordinal reference_real ->
  0 < _day reference_mauvelian <= 365 * 2 ^ 45 ->
  datetime.toordinal reference_real <= datetime.toordinal r
    <= datetime.MAXORDINAL ->
  _day reference_mauvelian <= _day d
    <= _day reference_mauvelian
       + (datetime.MAXORDINAL - datetime.toordinal reference_real) ->
  Stated.real_round_trip
    {| _reference := (Some reference_real, Some reference_mauvelian) |} r /\
  Stated.mauvelian_round_trip
    {| _reference := (Some reference_real, Some reference_mauvelian) |} d.
Proof.
  unfold datetime.MAXORDINAL. intros Hr0 Hm0 Hr Hd.
  destruct reference_real as [o0], reference_mauvelian as [n0], r as [o], d as [n].
  cbn [datetime.toordinal _day] in *.
  assert (Hadd : forall k, 0 <= k ->
            __add__ {| _day := n0 |} k = Ok {| _day := n0 + k |}).
  { intros k Hk. rewrite add_after_exodus by exact Hm0.
    unfold addDays. cbn [_day].
    destruct (n0 + k =? 0) eqn:E; comparisons; [lia|reflexivity]. }
  assert (Hback : forall k, 0 <= k <= 3652059 - o0 ->
            fst (mauvelianToReal
                   {| _reference := (Some {| datetime.toordinal := o0 |},
                                     Some {| _day := n0 |}) |}
                   {| _day := n0 + k |})
            = Ok {| datetime.toordinal := o0 + k |}).
  { intros k Hk. rewrite mauvelianToReal_unsigned. cbn [fst].
    unfold daysBetween. cbn [_day].
    replace (n0 + k - n0) with k by lia. rewrite Z.abs_eq by lia.
    rewrite timedelta_new_small by lia. cbn [bind].
    apply date_add_in_range. unfold datetime.MAXORDINAL.
    cbn [datetime.toordinal]. lia. }
  split.
  - exists {| _day := n0 + (o - o0) |}, {| datetime.toordinal := o0 + (o - o0) |}.
    split_all.
    + unfold realToMauvelian, datetime.sub.
      cbn [_reference fst datetime.days datetime.toordinal].
      apply Hadd. lia.
    + apply Hback. lia.
    + unfold datetime.eqb. cbn [datetime.toordinal]. apply Z.eqb_eq. lia.
  - exists {| datetime.toordinal := o0 + (n - n0) |}, {| _day := n0 + (n - n0) |}.
    split_all.
    + replace n with (n0 + (n - n0)) at 1 by lia. apply Hback. lia.
    + unfold realToMauvelian, datetime.sub.
      cbn [_reference fst datetime.days datetime.toordinal].
      replace (o0 + (n - n0) - o0) with (n - n0) by lia.
      apply Hadd. lia.
    + unfold __eq__. cbn [_day]. apply Z.eqb_eq. lia.
Qed.

Lemma round_trip_any_reference_witness :
  Stated.real_round_trip
    {| _reference := (Some {| datetime.toordinal := 730000 |},
                      Some {| _day := 1000 |}) |}
    {| datetime.toordinal := 730100 |} /\
  Stated.mauvelian_round_trip
    {| _reference := (Some {| datetime.toordinal := 730000 |},
                      Some {| _day := 1000 |}) |}
    {| _day := 1100 |}.
Proof.
  apply (round_trip_any_reference {| datetime.toordinal := 730000 |}
           {| datetime.toordinal := 730100 |} {| _day := 1000 |} {| _day := 1100 |});
    unfold datetime.MAXORDINAL; cbn [datetime.toordinal _day];
    change (2 ^ 45) with 35184372088832; lia.
Defined.

(* ================================================================== *)
(** * Witnesses of the properties proved with the claims *)
(* ================================================================== *)

Lemma construct_then_read_after_exodus_witness :
  exists d,
    __init__ 1318 128 None = Ok d /\ year d = Ok 1318 /\ dayOfYear d = 128.
Proof.
  apply (construct_then_read_after_exodus 1318 128);
    change (2 ^ 45) with 35184372088832; lia.
Defined.

Lemma rebuild_from_accessors_witness :
  exists y,
    year {| _day := 480833 |} = Ok y /\
    __init__ y (dayOfYear {| _day := 480833 |}) None = Ok {| _day := 480833 |} /\
    __add__ {| _day := 480833 |} 0 = Ok {| _day := 480833 |}.
Proof.
  apply (rebuild_from_accessors {| _day := 480833 |}).
  cbn [_day]. change (2 ^ 45) with 35184372088832. lia.
Defined.

Lemma addDays_sequence_never_zero_witness :
  _day (fold_left addDays [5; -6; 1] {| _day := 1 |}) <> 0.
Proof.
  apply (addDays_sequence_never_zero {| _day := 1 |} [5; -6; 1]). discriminate.
Defined.

Lemma mauvelianToReal_signed_from_reference_on_witness :
  fst (mauvelianToReal SelfTest.converter {| _day := 484666 |})
  = Stated.signed_conversion SelfTest.real SelfTest.mauvelian {| _day := 484666 |}.
Proof.
  apply (mauvelianToReal_signed_from_reference_on SelfTest.real SelfTest.mauvelian
           {| _day := 484666 |}).
  reflexivity.
Defined.

(* ================================================================== *)
(** * Further properties: every offset *)
(* ================================================================== *)

(** X25.  For every offset, of either sign and any size, [dayOfYear] is
    between 1 and 365 and is the same a whole number of years away, and
    [season] and [dayOfSeason] return a value: their [ValueError] is out of
    reach. *)
Theorem dayOfYear_every_offset (d : MauvelianDate.t) (k : Z) :
  1 <= dayOfYear d <= 365 /\
  dayOfYear {| _day := _day d + 365 * k |} = dayOfYear d /\
  is_ok (season d) = true /\
  is_ok (dayOfSeason d) = true.
Proof.
  pose proof (dayOfYear_range d) as Hr.
  split_all.
  - lia.
  - lia.
  - unfold dayOfYear. cbn [_day].
    rewrite (Z.mul_comm 365 k), Z.mod_add by lia. reflexivity.
  - unfold season. now rewrite (seasonOf_by_upper_bounds _ Hr).
  - unfold dayOfSeason. now rewrite (seasonOf_by_upper_bounds _ Hr).
Qed.

(** X26.  Whenever [year] returns, [str] returns the day of the season,
    a space, the season's name, a comma and a space, the year without its
    sign, and AE for a positive offset or BE otherwise; [str] raises only
    where [year] does. *)
Theorem str_shape (d : MauvelianDate.t) (y : Z) :
  year d = Ok y ->
  exists day_of_season s,
    dayOfSeason d = Ok day_of_season /\
    season d = Ok s /\
    __str__ d
    = Ok (format_i day_of_season ++ " " ++ MauvelianSeason.__str__ s ++ ", "
          ++ format_i (Z.abs y) ++ (if (0 <? _day d)%Z then "AE" else "BE"))%string.
Proof.
  intros Hy.
  pose proof (dayOfYear_range d) as Hr.
  pose proof (seasonOf_by_upper_bounds _ Hr) as Hs.
  exists (dayOfYear d
          - start (MauvelianSeason.daysRange
                     (Stated.season_by_upper_bounds (dayOfYear d))) + 1),
         (Stated.season_by_upper_bounds (dayOfYear d)).
  assert (Hds : dayOfSeason d
                = Ok (dayOfYear d
                      - start (MauvelianSeason.daysRange
                                 (Stated.season_by_upper_bounds (dayOfYear d))) + 1)).
  { unfold dayOfSeason. now rewrite Hs. }
  split; [exact Hds|]. split; [exact Hs|].
  unfold __str__. rewrite Hds. unfold season. rewrite Hs, Hy. cbn [bind].
  assert (Habs : (if 0 <? _day d then y else - y) = Z.abs y).
  { revert Hy. unfold year.
    destruct (truediv (_day d) 365) as [x|err] eqn:E;
      [|destruct (0 <? _day d); discriminate].
    destruct (0 <? _day d) eqn:Epos; comparisons; cbn [bind]; intros [= <-].
    - pose proof (truediv_365_sign (_day d) x ltac:(lia) E) as Hsg.
      rewrite Z.sgn_pos in Hsg by lia.
      pose proof (ceil_sign x ltac:(lia)). lia.
    - destruct (Z.eq_dec (_day d) 0) as [E0|N0].
      + rewrite E0 in E. revert E. cbn. intros [= <-]. reflexivity.
      + pose proof (truediv_365_sign (_day d) x N0 E) as Hsg.
        rewrite Z.sgn_neg in Hsg by lia.
        pose proof (floor_sign x ltac:(lia)). lia. }
  destruct (0 <? _day d); rewrite <- Habs; reflexivity.
Qed.

Lemma str_shape_witness :
  exists day_of_season s,
    dayOfSeason {| _day := -366 |} = Ok day_of_season /\
    season {| _day := -366 |} = Ok s /\
    __str__ {| _day := -366 |}
    = Ok (format_i day_of_season ++ " " ++ MauvelianSeason.__str__ s ++ ", "
          ++ format_i (Z.abs (-2)%Z)
          ++ (if (0 <? _day {| _day := -366 |})%Z then "AE" else "BE"))%string.
Proof.
  apply (str_shape {| _day := -366 |} (-2)). vm_compute. reflexivity.
Defined.

(** X27.  Subtracting dates undoes adding days: for a date with a
    positive offset up to 365 * 2^45 and a number of days that does not
    take it to offset 0, [(d + n) - d] and [d - (d + n)] are both the
    magnitude of [n]. *)
Theorem sub_after_add (d : MauvelianDate.t) (n : Z) :
  0 < _day d <= 365 * 2 ^ 45 ->
  _day d + n <> 0 ->
  exists sum,
    __add__ d n = Ok sum /\
    __sub__ recursion_limit sum (Date d) = Ok (Days (Z.abs n)) /\
    __sub__ recursion_limit d (Date sum) = Ok (Days (Z.abs n)).
Proof.
  intros H Hn. exists (addDays d n).
  split; [now apply add_after_exodus|].
  change recursion_limit with (S 999). rewrite !sub_Date.
  unfold addDays.
  destruct (_day d + n =? 0) eqn:E; comparisons; [contradiction|].
  unfold daysBetween. cbn [_day]. split; do 2 f_equal; lia.
Qed.

Lemma sub_after_add_witness :
  exists sum,
    __add__ {| _day := 476581 |} 4252 = Ok sum /\
    __sub__ recursion_limit sum (Date {| _day := 476581 |}) = Ok (Days (Z.abs 4252)) /\
    __sub__ recursion_limit {| _day := 476581 |} (Date sum) = Ok (Days (Z.abs 4252)).
Proof.
  apply (sub_after_add {| _day := 476581 |} 4252); cbn [_day];
    change (2 ^ 45) with 35184372088832; lia.
Defined.
